(** * Verification of the task routes (src/routes/tareas.js)

    A shallow embedding of the Express router of the repository: the two
    header predicates, the five request handlers and the route table,
    followed by the properties of the natural-language specification that
    were checked against them.

    Modelling choices, all local to this file:
    - JavaScript values are the inductive [JsVal]; an object is a finite map
      from property names to values ([gmap string JsVal]);
    - a handler is a tree of collaborator calls ([Prog]): every
      [await tareasLogic.f(..)] is a node whose continuation receives the
      settled promise, a [throw] that nothing catches ends the tree in
      [Throw];
    - [run] interprets such a tree against any implementation of the
      persistence collaborator, threading its store and recording the calls
      that were made. *)

From Stdlib Require Import String Ascii ZArith List Bool.
From stdpp Require Import gmap strings list fin_maps pretty.

Set Warnings "-register-all".
Local Open Scope string_scope.
Local Open Scope Z_scope.

(** ** JavaScript values *)

(** A number is kept as its canonical rendering (what
    [Number.prototype.toString] prints: "0", "5", "1.5", "NaN", ...), which
    determines the number up to the sign of zero. *)
Inductive JsVal : Type :=
  | JUndefined
  | JNull
  | JBool (b : bool)
  | JNum (repr : string)
  | JStr (s : string)
  | JDate (ms : Z)
  | JArr (items : list JsVal)
  | JObj (fields : gmap string JsVal).

Abbreviation Obj := (gmap string JsVal).

(** ToBoolean: [undefined], [null], [false], [0], [NaN] and the empty string
    are falsy, everything else (objects, arrays and dates included) is
    truthy. *)
Definition truthy (v : JsVal) : bool :=
  match v with
  | JUndefined | JNull => false
  | JBool b => b
  | JNum repr => negb (String.eqb repr "0" || String.eqb repr "NaN")
  | JStr s => negb (String.eqb s "")
  | JDate _ | JArr _ | JObj _ => true
  end.

(** [v instanceof String || typeof v === "string"]. A parsed JSON body and
    an HTTP header never hold a [String] wrapper object, so only the
    primitive string passes. *)
Definition is_string (v : JsVal) : bool :=
  match v with
  | JStr _ => true
  | _ => false
  end.

(** [a === b] on primitives. Objects, arrays and dates are equal only to
    themselves; the handlers only ever compare a value of the request with a
    value of another origin, never an object with itself. *)
Definition strict_equals (a b : JsVal) : bool :=
  match a, b with
  | JUndefined, JUndefined => true
  | JNull, JNull => true
  | JBool x, JBool y => Bool.eqb x y
  | JNum x, JNum y => String.eqb x y && negb (String.eqb x "NaN")
  | JStr x, JStr y => String.eqb x y
  | _, _ => false
  end.

(** SameValueZero, the comparison of [Array.prototype.includes]: as [===]
    but [NaN] equals itself. *)
Definition same_value_zero (a b : JsVal) : bool :=
  match a, b with
  | JNum x, JNum y => String.eqb x y
  | _, _ => strict_equals a b
  end.

(** [l.includes(v)] *)
Definition includes (l : list JsVal) (v : JsVal) : bool :=
  existsb (fun x => same_value_zero x v) l.

(** [o.k]: the value of an own property, [undefined] when there is none. *)
Definition prop (o : Obj) (k : string) : JsVal :=
  default JUndefined (o !! k).

(** ** Strings: [split(";")] and [trim()]

    A header is a sequence of code units below 256 (Node decodes header
    bytes as Latin-1), so one [ascii] per code unit. *)

(** The white space and line terminators of ECMAScript below 256:
    TAB, LF, VT, FF, CR, SP and NBSP. *)
Definition is_ws (c : ascii) : bool :=
  let n := nat_of_ascii c in
  (Nat.eqb n 9 || Nat.eqb n 10 || Nat.eqb n 11 || Nat.eqb n 12
   || Nat.eqb n 13 || Nat.eqb n 32 || Nat.eqb n 160)%bool.

Fixpoint trim_start (s : string) : string :=
  match s with
  | EmptyString => EmptyString
  | String c s' => if is_ws c then trim_start s' else s
  end.

Fixpoint trim_end (s : string) : string :=
  match s with
  | EmptyString => EmptyString
  | String c s' =>
      match trim_end s' with
      | EmptyString => if is_ws c then EmptyString else String c EmptyString
      | t => String c t
      end
  end.

(** [s.trim()] *)
Definition trim (s : string) : string := trim_end (trim_start s).

(** [s.split(sep)] for a one-character separator: the pieces between the
    separators, [[""]] for the empty string. *)
Fixpoint split (sep : ascii) (s : string) : list string :=
  match s with
  | EmptyString => [EmptyString]
  | String c s' =>
      if Ascii.eqb c sep then EmptyString :: split sep s'
      else match split sep s' with
           | seg :: rest => String c seg :: rest
           | [] => [String c EmptyString]
           end
  end.

(** [l.includes(x)] on an array of strings. *)
Definition str_includes (l : list string) (x : string) : bool :=
  existsb (String.eqb x) l.

(** ** The header predicates *)

(** [validAcceptHeader], lines 65-80. *)
Definition validAcceptHeader (acceptHeader : JsVal) : bool :=
  if negb (truthy acceptHeader) && negb (strict_equals acceptHeader (JStr ""))
  then true
  else
    match acceptHeader with
    | JStr s =>
        let acceptedTypes := map trim (split ";" s) in
        if str_includes acceptedTypes "application/json"
           || str_includes acceptedTypes "*/*"
        then true else false
    | _ => false
    end.

(** [validContentTypeHeader], lines 90-110. *)
Definition validContentTypeHeader (contentTypeHeader : JsVal) : bool :=
  if negb (truthy contentTypeHeader) then false
  else
    match contentTypeHeader with
    | JStr s =>
        let contentTypes := map trim (split ";" s) in
        if str_includes contentTypes "application/json" then true else false
    | _ => false
    end.

(** ** Requests and responses *)

(** What a handler reads of the request: [req.header(name)], [req.body] as
    [body-parser] left it and [req.params.idTarea]. The body is an object
    ([{}] when nothing was parsed; an array reads like the empty object,
    since the handlers only read named properties of it). Header names are
    keyed as the handlers spell them. *)
Record Request : Type := mkRequest {
  req_headers : gmap string JsVal;
  req_body : Obj;
  req_idTarea : string
}.

(** [req.header(name)]: Express gives the string of the header or
    [undefined]. *)
Definition header (req : Request) (name : string) : JsVal :=
  default JUndefined (req_headers req !! name).

(** A template literal, its substitutions kept as the values they are;
    JavaScript renders each with ToString when the string is built. *)
Inductive Piece : Type :=
  | Lit (s : string)
  | Interp (v : JsVal).

Abbreviation Template := (list Piece).

(** Whether ToString, which a template literal applies to each
    substitution, throws on [v]. Primitives always render. An object is
    converted through its [toString], then its [valueOf]: a parsed JSON
    object with an own [toString] property hides
    [Object.prototype.toString] behind a value that is no function, and
    neither an own [valueOf] (no function either) nor the inherited one
    (which gives the object back) yields a primitive, so the conversion
    ends in a TypeError; without that property the object renders as
    [[object Object]]. An array renders its items joined by commas ([null]
    as the empty string), so it throws when one of its items does. *)
Fixpoint toString_throws (v : JsVal) : bool :=
  match v with
  | JObj fields =>
      match fields !! "toString" with
      | Some _ => true
      | None => false
      end
  | JArr items => existsb toString_throws items
  | _ => false
  end.

(** What was given to [res.send] or [res.end]. *)
Inductive Body : Type :=
  | SendEnvelope (message details : Template)
  | SendJson (v : JsVal)
  | EndText (s : string).

(** The response object as the code of the routes leaves it: the status
    code it assigned, the headers it set with [setHeader], what it handed
    to [res.send] or [res.end], and whether it finished the response. What
    Express then puts on the wire is Express's work and no part of this
    record: [res.send] serialises the body, completes the Content-Type with
    a charset, adds Content-Length and ETag, and answers a conditional GET
    whose validators match with 304 and no body. *)
Record Response : Type := mkResponse {
  statusCode : Z;
  res_headers : gmap string string;
  res_body : option Body;
  res_ended : bool
}.

(** [res.statusCode = n] *)
Definition set_statusCode (n : Z) (res : Response) : Response :=
  mkResponse n (res_headers res) (res_body res) (res_ended res).

(** [res.setHeader(k, v)] *)
Definition setHeader (k v : string) (res : Response) : Response :=
  mkResponse (statusCode res) (<[k := v]> (res_headers res)) (res_body res)
             (res_ended res).

(** The call [res.send(b)], as far as the routes are concerned: [b] is
    handed to Express, which finishes the response. *)
Definition send (b : Body) (res : Response) : Response :=
  mkResponse (statusCode res) (res_headers res) (Some b) true.

(** [res.end()] *)
Definition end_ (res : Response) : Response :=
  mkResponse (statusCode res) (res_headers res) (res_body res) true.

(** [res.end(text)] *)
Definition end_with (text : string) (res : Response) : Response :=
  mkResponse (statusCode res) (res_headers res) (Some (EndText text)) true.

(** The response object as Express hands it to the first middleware. *)
Definition fresh_response : Response := mkResponse 200 ∅ None false.

(** The double quote, for the literals that contain one. *)
Definition dq : string := String (ascii_of_nat 34) EmptyString.

(** ** The error envelopes of the handlers

    The source names no error kinds: each rejection is an object literal
    [{message, details}]. They are named here after the kinds of the
    specification. *)

(** lines 122-126 and 231-235 *)
Definition MediaNotSupported (acceptHeader : JsVal) : Body :=
  SendEnvelope
    [Lit "Media not supported :  "; Interp acceptHeader]
    [Lit "This endpoint only support 'application/json' media type, please verify your `Accept` header "].

(** lines 146-149 and 220-223 *)
Definition InvalidContentType (contenTypeHeader : JsVal) : Body :=
  SendEnvelope
    [Lit "Invalid Content-Type : "; Interp contenTypeHeader]
    [Lit "This endpoint expected JSON object with attribute `description`"].

(** lines 249-252 *)
Definition InvalidAttribute (description : JsVal) : Body :=
  SendEnvelope
    [Lit ("Invalid attribute " ++ dq ++ "description" ++ dq)]
    [Lit "The value "; Interp description;
     Lit (" for attribute " ++ dq ++ "description" ++ dq
          ++ " is invalid, it should be a non-empty string")].

(** lines 205-208 ("objecti", as the source spells it) *)
Definition ResourceNotFound_get (idTarea : string) : Body :=
  SendEnvelope
    [Lit "Can't find objecti with id : "; Interp (JStr idTarea)]
    [Lit "This endpoint expected a valid object identifier"].

(** lines 267-270 and 358-361 *)
Definition ResourceNotFound (idTarea : string) : Body :=
  SendEnvelope
    [Lit "Can't find object with id : "; Interp (JStr idTarea)]
    [Lit "This endpoint expected a valid object identifier"].

(** lines 282-286 *)
Definition InvalidStatusValue : Body :=
  SendEnvelope
    [Lit "Invalid Data"]
    [Lit "Invalid status, only accepted `PENDIENTE`, `TERMINADO`, `CANCELADO`. It is case sensitive!"].

(** lines 298-301 *)
Definition IllegalTransition_pendiente (oldStatus : JsVal) : Body :=
  SendEnvelope
    [Lit "Invalid Data"]
    [Lit "A Task with status '"; Interp oldStatus;
     Lit "' can only be transitioned to status 'TERMINADO' or status 'CANCELADO'"].

(** lines 313-316 *)
Definition IllegalTransition (oldStatus status : JsVal) : Body :=
  SendEnvelope
    [Lit "Invalid Data"]
    [Lit "A Task with status '"; Interp oldStatus;
     Lit "' can't be transitioned to status '"; Interp status;
     Lit "' directly"].

(** lines 339-342 ("udpated", as the source spells it) *)
Definition PersistenceFailure (idTarea : string) : Body :=
  SendEnvelope
    [Lit "Can't update"]
    [Lit "A Task with id '"; Interp (JStr idTarea); Lit "' can't be udpated"].

(** lines 369-372 *)
Definition TaskDeleted (idTarea : string) : Body :=
  SendEnvelope
    [Lit "Task deleted"]
    [Lit "The task with id "; Interp (JStr idTarea);
     Lit " was successfully deleted"].

(** lines 375-378 *)
Definition PersistenceFailure_erase (idTarea : string) : Body :=
  SendEnvelope
    [Lit "Can't be deleted"]
    [Lit "Task with id "; Interp (JStr idTarea); Lit " can't be deleted"].

(** The sequence every rejection is written as:
    [res.statusCode = 400; res.send({..}); res.end()]. *)
Definition bad_request (b : Body) (res : Response) : Response :=
  end_ (send b (set_statusCode 400 res)).

(** ** Handlers as trees of collaborator calls *)

(** A thrown value: an [Error] with its [name] and [message]. *)
Record Exn : Type := mkExn {
  exn_name : string;
  exn_message : string
}.

(** Reading a variable that no scope binds. *)
Definition ReferenceError (x : string) : Exn :=
  mkExn "ReferenceError" (x ++ " is not defined").

(** A conversion that found no primitive value. *)
Definition TypeError (message : string) : Exn := mkExn "TypeError" message.

(** A settled promise. *)
Inductive Res (X : Type) : Type :=
  | Resolved (x : X)
  | Rejected (e : Exn).

Arguments Resolved {X} x.
Arguments Rejected {X} e.

(** The body of an [async] handler. The five collaborator operations are
    the functions of [../logic/tareas] the routes call; each node holds the
    arguments of the call and what the handler does with the settled
    promise. [Throw] is an exception that left the handler: the promise of
    the handler rejects and no response is sent. *)
Inductive Prog (A : Type) : Type :=
  | Ret (a : A)
  | Throw (e : Exn)
  | GetAll (k : Res (list Obj) -> Prog A)
  | GetOne (id : string) (k : Res Obj -> Prog A)
  | Create (record : Obj) (k : Res Obj -> Prog A)
  | Update (id : string) (record : Obj) (k : Res unit -> Prog A)
  | Erase (id : string) (k : Res unit -> Prog A)
  | ConsoleError (line : Template) (k : Prog A).

Arguments Ret {A} a.
Arguments Throw {A} e.
Arguments GetAll {A} k.
Arguments GetOne {A} id k.
Arguments Create {A} record k.
Arguments Update {A} id record k.
Arguments Erase {A} id k.
Arguments ConsoleError {A} line k.

(** An [await] outside any [try]: a rejection is rethrown. *)
Definition or_throw {X A : Type} (k : X -> Prog A) (r : Res X) : Prog A :=
  match r with
  | Resolved x => k x
  | Rejected e => Throw e
  end.

(** ** The middlewares and handlers of src/routes/tareas.js

    A handler receives the response object the middlewares before it have
    worked on and yields it as it is when the handler's promise resolves.
    [now] is the reading of [Date.now()] during the request. *)

(** [allRequest], lines 20-25 *)
Definition allRequest (res : Response) : Response :=
  setHeader "Content-Type" "application/json"
    (setHeader "Access-Control-Allow-Origin" "*" (set_statusCode 200 res)).

(** [showOptions], lines 33-39 *)
Definition showOptions (res : Response) : Response :=
  end_ (setHeader "Allow" "OPTIONS,GET,POST"
    (setHeader "Access-Control-Allow-Origin" "*"
      (setHeader "Access-Control-Allow-Methods" "OPTIONS,GET,POST"
        (setHeader "Access-Control-Allow-Headers" "Accept,Content-Type" res)))).

(** [showOptionsPerResource], lines 41-47 *)
Definition showOptionsPerResource (res : Response) : Response :=
  end_ (setHeader "Allow" "OPTIONS,GET,DELETE,PUT"
    (setHeader "Access-Control-Allow-Origin" "*"
      (setHeader "Access-Control-Allow-Methods" "OPTIONS,GET,DELETE,PUT"
        (setHeader "Access-Control-Allow-Headers" "Accept,Content-Type" res)))).

(** [obtenerTareas], lines 118-133. The [await] of line 130 stands in no
    [try]. *)
Definition obtenerTareas (req : Request) (res : Response) : Prog Response :=
  let acceptHeader := header req "Accept" in
  if negb (validAcceptHeader acceptHeader) then
    Ret (bad_request (MediaNotSupported acceptHeader) res)
  else
    GetAll (or_throw (fun tareas =>
      Ret (end_ (send (SendJson (JArr (JObj <$> tareas))) res)))).

(** The object literal [modeloACrear] of [crearTarea], lines 173-184: the
    nine descriptive attributes read off the body (an absent one is the
    property with value [undefined]) and the creation date. *)
Definition modeloACrear (now : Z) (jsonBody : Obj) : Obj :=
  {[ "tipo" := prop jsonBody "tipo";
     "ciudad" := prop jsonBody "ciudad";
     "nombre_marca" := prop jsonBody "nombre_marca";
     "description" := prop jsonBody "description";
     "precio" := prop jsonBody "precio";
     "contacto" := prop jsonBody "contacto";
     "longitud" := prop jsonBody "longitud";
     "latitud" := prop jsonBody "latitud";
     "galeria" := prop jsonBody "galeria";
     "date" := JDate now ]}.

(** [crearTarea], lines 142-189. Line 167 builds the [details] of the
    rejection from [description], a name that neither the function nor the
    module binds: evaluating the object literal throws before [res.send] is
    reached. The [await] of line 186 stands in no [try]. *)
Definition crearTarea (now : Z) (req : Request) (res : Response)
  : Prog Response :=
  let contenTypeHeader := header req "Content-Type" in
  if negb (validContentTypeHeader contenTypeHeader) then
    Ret (bad_request (InvalidContentType contenTypeHeader) res)
  else
    let jsonBody := req_body req in
    if truthy (prop jsonBody "description")
       && negb (is_string (prop jsonBody "description"))
    then Throw (ReferenceError "description")
    else
      Create (modeloACrear now jsonBody) (or_throw (fun tareaCreada =>
        Ret (end_ (send (SendJson (JObj tareaCreada)) res)))).

(** [obtenerTarea], lines 197-211 *)
Definition obtenerTarea (req : Request) (res : Response) : Prog Response :=
  let idTarea := req_idTarea req in
  GetOne idTarea (fun r =>
    match r with
    | Resolved tarea => Ret (end_ (send (SendJson (JObj tarea)) res))
    | Rejected error => Ret (bad_request (ResourceNotFound_get idTarea) res)
    end).

(** The [catch] of lines 336-345. *)
Definition cant_update (idTarea : string) (error : Exn) (res : Response)
  : Prog Response :=
  ConsoleError
    [Lit "Can't update Error: "; Interp (JStr (exn_name error));
     Lit " : "; Interp (JStr (exn_message error))]
    (Ret (bad_request (PersistenceFailure idTarea) res)).

(** The block [if (status) { .. }] of [actualizarTarea], lines 276-322:
    [t] is the fetched record (its [id] already deleted); the block either
    sends a rejection and returns, or leaves [t] with line 321 applied. *)
Definition actualizarTarea_status (status : JsVal) (t : Obj) : Body + Obj :=
  if truthy status then
    let oldStatus := prop t "status" in
    if negb (includes [JStr "PENDIENTE"; JStr "TERMINADO"; JStr "CANCELADO"]
                      status)
    then inl InvalidStatusValue
    else if negb (strict_equals status oldStatus) then
      if strict_equals oldStatus (JStr "PENDIENTE")
         && (negb (strict_equals status (JStr "TERMINADO"))
             && negb (strict_equals status (JStr "CANCELADO")))
      then inl (IllegalTransition_pendiente oldStatus)
      else if (strict_equals oldStatus (JStr "TERMINADO")
               && strict_equals status (JStr "CANCELADO"))
              || (strict_equals oldStatus (JStr "CANCELADO")
                  && strict_equals status (JStr "TERMINADO"))
      then inl (IllegalTransition oldStatus status)
      else inr (<["status" := status]> t)
    else inr (<["status" := status]> t)
  else inr t.

(** Lines 324-328 of [actualizarTarea]: the description of the request is
    assigned when it is truthy, then [t.date = new Date(Date.now())]. *)
Definition actualizarTarea_stamp (now : Z) (description : JsVal) (t : Obj)
  : Obj :=
  let t : Obj :=
    if truthy description then <["description" := description]> t else t in
  <["date" := JDate now]> t.

(** [actualizarTarea], lines 213-346. [t] is the object [getOne] resolved
    with; both [await] of lines 330 and 333 stand in the same [try]. The
    rejection of lines 248-252 renders [description] into its [details]
    (line 251): when that conversion throws, the exception leaves the
    handler before [res.send] is reached, no [try] being around it. *)
Definition actualizarTarea (now : Z) (req : Request) (res : Response)
  : Prog Response :=
  let contenTypeHeader := header req "Content-Type" in
  let acceptHeader := header req "Accept" in
  if negb (validContentTypeHeader contenTypeHeader) then
    Ret (bad_request (InvalidContentType contenTypeHeader) res)
  else if negb (validAcceptHeader acceptHeader) then
    Ret (bad_request (MediaNotSupported acceptHeader) res)
  else
    let description := prop (req_body req) "description" in
    let status := prop (req_body req) "status" in
    if truthy description && negb (is_string description) then
      if toString_throws description
      then Throw (TypeError "Cannot convert object to primitive value")
      else Ret (bad_request (InvalidAttribute description) res)
    else
      let idTarea := req_idTarea req in
      GetOne idTarea (fun r =>
        match r with
        | Rejected error => Ret (bad_request (ResourceNotFound idTarea) res)
        | Resolved t =>
            let t : Obj := delete "id" t in
            match actualizarTarea_status status t with
            | inl rejection => Ret (bad_request rejection res)
            | inr t =>
                let t := actualizarTarea_stamp now description t in
                Update idTarea t (fun w =>
                  match w with
                  | Rejected error => cant_update idTarea error res
                  | Resolved _ =>
                      GetOne idTarea (fun r' =>
                        match r' with
                        | Rejected error => cant_update idTarea error res
                        | Resolved tareaActualizada =>
                            Ret (end_ (send (SendJson (JObj tareaActualizada))
                                            res))
                        end)
                  end)
            end
        end).

(** [borrarTarea], lines 348-382. The successful branch ends with
    [res.send]. *)
Definition borrarTarea (req : Request) (res : Response) : Prog Response :=
  let idTarea := req_idTarea req in
  GetOne idTarea (fun r =>
    match r with
    | Rejected error => Ret (bad_request (ResourceNotFound idTarea) res)
    | Resolved t =>
        Erase idTarea (fun d =>
          match d with
          | Resolved _ =>
              Ret (send (TaskDeleted idTarea) (set_statusCode 200 res))
          | Rejected error =>
              Ret (bad_request (PersistenceFailure_erase idTarea) res)
          end)
    end).

(** The route table, lines 384-409: [.all(allRequest)] runs first and calls
    [next()], then the handler registered for the method. *)
Inductive Method : Type := OPTIONS | GET | POST | PUT | DELETE.

(** [tareasRouter.route("/")] *)
Definition route_root (m : Method) (now : Z) (req : Request) (res : Response)
  : Prog Response :=
  let res := allRequest res in
  match m with
  | OPTIONS => Ret (showOptions res)
  | GET => obtenerTareas req res
  | POST => crearTarea now req res
  | PUT =>
      Ret (end_with "PUT method is not supported on /tasks"
             (set_statusCode 405 res))
  | DELETE =>
      Ret (end_with "DELETE method is not supported on /tasks"
             (set_statusCode 405 res))
  end.

(** [tareasRouter.route("/:idTarea")] *)
Definition route_idTarea (m : Method) (now : Z) (req : Request)
  (res : Response) : Prog Response :=
  let res := allRequest res in
  match m with
  | OPTIONS => Ret (showOptionsPerResource res)
  | GET => obtenerTarea req res
  | POST =>
      Ret (end_with ("POST operation is not suported on /tareas/"
                     ++ req_idTarea req)
             (set_statusCode 405 res))
  | PUT => actualizarTarea now req res
  | DELETE => borrarTarea req res
  end.

(** ** Running a handler against a persistence collaborator *)

(** An implementation of [../logic/tareas] over a store of type [St]: each
    operation settles its promise and leaves a store. The module itself is
    not part of the sources at hand, so the handlers are verified against
    every implementation. A record a call resolves with is the handler's own
    copy: what [actualizarTarea] deletes from it and assigns to it reaches
    the store through [update] only. *)
Record Logic (St : Type) : Type := mkLogic {
  getAll : St -> Res (list Obj) * St;
  getOne : string -> St -> Res Obj * St;
  create : Obj -> St -> Res Obj * St;
  update : string -> Obj -> St -> Res unit * St;
  erase : string -> St -> Res unit * St
}.

Arguments getAll {St} _ _.
Arguments getOne {St} _ _ _.
Arguments create {St} _ _ _.
Arguments update {St} _ _ _ _.
Arguments erase {St} _ _ _.

(** What a run leaves behind besides the response: the collaborator calls
    in the order they were made, each with how it settled, and the lines
    written with [console.error]. *)
Inductive Event : Type :=
  | EvGetAll (r : Res (list Obj))
  | EvGetOne (id : string) (r : Res Obj)
  | EvCreate (record : Obj) (r : Res Obj)
  | EvUpdate (id : string) (record : Obj) (r : Res unit)
  | EvErase (id : string) (r : Res unit)
  | EvConsoleError (line : Template).

(** How the promise of a handler settles: it resolves once the response is
    complete, or rejects with an exception nobody handles (Express 4 does
    not observe the promise of a handler). *)
Inductive Outcome (A : Type) : Type :=
  | Done (a : A)
  | Unhandled (e : Exn).

Arguments Done {A} a.
Arguments Unhandled {A} e.

Fixpoint run {St A : Type} (L : Logic St) (p : Prog A) (st : St)
  : Outcome A * St * list Event :=
  match p with
  | Ret a => (Done a, st, [])
  | Throw e => (Unhandled e, st, [])
  | GetAll k =>
      let '(r, st1) := getAll L st in
      let '(out, st2, tr) := run L (k r) st1 in
      (out, st2, EvGetAll r :: tr)
  | GetOne id k =>
      let '(r, st1) := getOne L id st in
      let '(out, st2, tr) := run L (k r) st1 in
      (out, st2, EvGetOne id r :: tr)
  | Create record k =>
      let '(r, st1) := create L record st in
      let '(out, st2, tr) := run L (k r) st1 in
      (out, st2, EvCreate record r :: tr)
  | Update id record k =>
      let '(r, st1) := update L id record st in
      let '(out, st2, tr) := run L (k r) st1 in
      (out, st2, EvUpdate id record r :: tr)
  | Erase id k =>
      let '(r, st1) := erase L id st in
      let '(out, st2, tr) := run L (k r) st1 in
      (out, st2, EvErase id r :: tr)
  | ConsoleError line k =>
      let '(out, st1, tr) := run L k st in
      (out, st1, EvConsoleError line :: tr)
  end.

(** ** The Mongoose schema of src/models/tarea.js *)

Inductive SchemaType : Type := SNumber | SString | SDate.

(** [tareaSchema], lines 4-16: the declared paths, none with a default. *)
Definition tareaSchema : list (string * SchemaType) :=
  [ ("id", SNumber); ("tipo", SString); ("ciudad", SString);
    ("nombre_marca", SString); ("description", SString);
    ("precio", SNumber); ("contacto", SString); ("longitud", SString);
    ("latitud", SString); ("galeria", SString); ("date", SDate) ].

(** ** A reference collaborator *)

(** The store of the reference collaborator: the task records by
    identifier, the counter the next identifier is taken from, and the
    faults still to come (one flag per call, [true] makes that call fail
    with a persistence error). *)
Record Store : Type := mkStore {
  tasks : gmap string Obj;
  next_id : N;
  faults : list bool
}.

(** The fault schedule makes the next call on the store fail. *)
Definition next_call_fails (st : Store) : bool :=
  match faults st with
  | true :: _ => true
  | _ => false
  end.

Definition PersistenceError : Exn := mkExn "PersistenceError" "store unavailable".
Definition NotFound (id : string) : Exn := mkExn "NotFound" id.

(** One call against the store: the next fault flag is consumed; when it is
    set the call rejects and the records stay as they are. *)
Definition with_fault {X : Type} (op : Store -> Res X * Store) (st : Store)
  : Res X * Store :=
  match faults st with
  | true :: rest => (Rejected PersistenceError, mkStore (tasks st) (next_id st) rest)
  | false :: rest => op (mkStore (tasks st) (next_id st) rest)
  | [] => op st
  end.

(** Modelled from the spec: the persistence collaborator [../logic/tareas],
    which is not among the sources. Section 1 and 6 of the specification
    give its interface: [getAll()], [getOne(id)], [create(record)],
    [update(id, record)], [erase(id)] over task records keyed by an
    identifier, each resolving with data or failing with a NotFound or
    persistence error; [getOne], [update] and [erase] fail when the
    identifier does not resolve. Section 3 makes it responsible for the
    identifier and for the default status [PENDIENTE] of a new task. The
    record [getOne] resolves with carries the identifier in [id]. *)
Definition memLogic : Logic Store :=
  let with_id (id : string) (t : Obj) : Obj := <["id" := JStr id]> t in
  mkLogic Store
    (with_fault (fun st =>
       (Resolved ((fun '(id, t) => with_id id t) <$> map_to_list (tasks st)), st)))
    (fun id => with_fault (fun st =>
       match tasks st !! id with
       | Some t => (Resolved (with_id id t), st)
       | None => (Rejected (NotFound id), st)
       end))
    (fun record => with_fault (fun st =>
       let id := pretty (next_id st) in
       let t : Obj :=
         match record !! "status" with
         | Some _ => record
         | None => <["status" := JStr "PENDIENTE"]> record
         end in
       (Resolved (with_id id t),
        mkStore (<[id := t]> (tasks st)) (N.succ (next_id st)) (faults st))))
    (fun id record => with_fault (fun st =>
       match tasks st !! id with
       | Some _ =>
           (Resolved tt,
            mkStore (<[id := record]> (tasks st)) (next_id st) (faults st))
       | None => (Rejected (NotFound id), st)
       end))
    (fun id => with_fault (fun st =>
       match tasks st !! id with
       | Some _ =>
           (Resolved tt,
            mkStore (delete id (tasks st)) (next_id st) (faults st))
       | None => (Rejected (NotFound id), st)
       end)).

(** ** Vocabulary of the properties *)

(** The three status values the transition rules speak of. *)
Inductive Status : Type := PENDIENTE | TERMINADO | CANCELADO.

Definition status_name (s : Status) : string :=
  match s with
  | PENDIENTE => "PENDIENTE"
  | TERMINADO => "TERMINADO"
  | CANCELADO => "CANCELADO"
  end.

(** The terminal states of the specification. *)
Definition terminal (s : Status) : bool :=
  match s with
  | PENDIENTE => false
  | TERMINADO | CANCELADO => true
  end.

Definition status_eqb (a b : Status) : bool :=
  match a, b with
  | PENDIENTE, PENDIENTE | TERMINADO, TERMINADO | CANCELADO, CANCELADO => true
  | _, _ => false
  end.

(** A string of white space only. *)
Fixpoint all_ws (s : string) : bool :=
  match s with
  | EmptyString => true
  | String c s' => is_ws c && all_ws s'
  end.

(** [c] occurs in [s]. *)
Fixpoint has_char (c : ascii) (s : string) : bool :=
  match s with
  | EmptyString => false
  | String d s' => Ascii.eqb d c || has_char c s'
  end.

(** [l.join(sep)] *)
Fixpoint join (sep : ascii) (l : list string) : string :=
  match l with
  | [] => EmptyString
  | [x] => x
  | x :: rest => x ++ String sep (join sep rest)
  end.

(** [s] is a [;]-separated list one of whose items is, white space around
    it apart, [application/json] or [*/*]. *)
Definition lists_media_type (s : string) : Prop :=
  exists segs seg l r core,
    s = join ";" segs /\ Forall (fun x => has_char ";" x = false) segs /\
    In seg segs /\ seg = l ++ core ++ r /\
    all_ws l = true /\ all_ws r = true /\
    (core = "application/json" \/ core = "*/*").

(** The acceptability of an Accept header as section 4.1 of the
    specification words it: the header is absent, equal to [*/*], or equal
    to [application/json] possibly followed by [;]-separated parameters; any
    other value, and any value that is not a string, is rejected. *)
Definition spec_acceptable (h : JsVal) : bool :=
  match h with
  | JUndefined => true
  | JStr s =>
      String.eqb s "*/*" || String.eqb s "application/json"
      || String.prefix "application/json;" s
  | _ => false
  end.

(** How [actualizarTarea] goes on once the request passed its three checks
    and [getOne] resolved with [t] in store [st1]: the run of the rest of
    the handler, written out call by call. [run_actualizarTarea] below
    proves it equal to the run of the handler itself. *)
Definition update_result {St : Type} (L : Logic St) (now : Z) (req : Request)
  (res : Response) (t : Obj) (st1 : St)
  : Outcome Response * St * list Event :=
  let id := req_idTarea req in
  let console (e : Exn) :=
    EvConsoleError [Lit "Can't update Error: "; Interp (JStr (exn_name e));
                    Lit " : "; Interp (JStr (exn_message e))] in
  match actualizarTarea_status (prop (req_body req) "status") (delete "id" t) with
  | inl rejection =>
      (Done (bad_request rejection res), st1, [EvGetOne id (Resolved t)])
  | inr t0 =>
      let record :=
        actualizarTarea_stamp now (prop (req_body req) "description") t0 in
      match update L id record st1 with
      | (Rejected e, st2) =>
          (Done (bad_request (PersistenceFailure id) res), st2,
           [EvGetOne id (Resolved t); EvUpdate id record (Rejected e);
            console e])
      | (Resolved w, st2) =>
          match getOne L id st2 with
          | (Rejected e, st3) =>
              (Done (bad_request (PersistenceFailure id) res), st3,
               [EvGetOne id (Resolved t); EvUpdate id record (Resolved w);
                EvGetOne id (Rejected e); console e])
          | (Resolved t2, st3) =>
              (Done (end_ (send (SendJson (JObj t2)) res)), st3,
               [EvGetOne id (Resolved t); EvUpdate id record (Resolved w);
                EvGetOne id (Resolved t2)])
          end
      end
  end.

(** What [actualizarTarea] asks the collaborator to write when the status
    block lets the requested status through: the fetched record [t] without
    its [id], with the status assigned and lines 324-328 applied. *)
Definition written (now : Z) (req : Request) (t : Obj) (status : string)
  : Obj :=
  actualizarTarea_stamp now (prop (req_body req) "description")
    (<["status" := JStr status]> (delete "id" t)).

(** The body a finished run sent, if any. *)
Definition sent_body {St : Type} (r : Outcome Response * St * list Event)
  : option Body :=
  match fst (fst r) with
  | Done res => res_body res
  | Unhandled _ => None
  end.

(** ** Concrete requests and stores, for the examples *)

Definition json_headers : gmap string JsVal :=
  {[ "Content-Type" := JStr "application/json" ]}.

(** The response object after [allRequest]. *)
Definition res0 : Response := allRequest fresh_response.

Definition task_pendiente : Obj :=
  {[ "status" := JStr "PENDIENTE"; "description" := JStr "buy milk";
     "tipo" := JStr "casa"; "date" := JDate 1000 ]}.

Definition task_terminado : Obj :=
  {[ "status" := JStr "TERMINADO"; "description" := JStr "buy milk";
     "tipo" := JStr "casa"; "date" := JDate 1000 ]}.

Definition store_empty : Store := mkStore ∅ 1 [].

Definition store_pendiente : Store := mkStore {[ "1" := task_pendiente ]} 2 [].

Definition store_terminado : Store := mkStore {[ "1" := task_terminado ]} 2 [].

(** A store whose third call fails: during an update the first read and the
    write go through and the second read is rejected. *)
Definition store_reread_fails : Store :=
  mkStore {[ "1" := task_pendiente ]} 2 [false; false; true].

(** The stored status of task "1". *)
Definition stored_status (st : Store) : JsVal :=
  match tasks st !! "1" with
  | Some t => prop t "status"
  | None => JUndefined
  end.

(** [PUT /tasks/1] with body [{status}]. *)
Definition put_status (status : string) : Request :=
  mkRequest json_headers {[ "status" := JStr status ]} "1".

(** [PUT /tasks/1] with body [{description}]. *)
Definition put_description (description : JsVal) : Request :=
  mkRequest json_headers {[ "description" := description ]} "1".

(** [PUT /tasks/doesnotexist], with and without a Content-Type. *)
Definition put_missing : Request :=
  mkRequest json_headers {[ "status" := JStr "TERMINADO" ]} "doesnotexist".

Definition put_no_content_type : Request :=
  mkRequest ∅ {[ "status" := JStr "TERMINADO" ]} "doesnotexist".

(** [POST /tasks] with body [{description}]. *)
Definition post_description (description : JsVal) : Request :=
  mkRequest json_headers {[ "description" := description ]} "".

(** The three requests of the lifecycle scenario of the specification, run
    one after the other from the empty store. *)
Definition after_create : Outcome Response * Store * list Event :=
  run memLogic (route_root POST 1000 (post_description (JStr "buy milk"))
                  fresh_response) store_empty.

Definition after_terminado : Outcome Response * Store * list Event :=
  run memLogic (route_idTarea PUT 2000 (put_status "TERMINADO") fresh_response)
    (snd (fst after_create)).

Definition after_cancelado : Outcome Response * Store * list Event :=
  run memLogic (route_idTarea PUT 3000 (put_status "CANCELADO") fresh_response)
    (snd (fst after_terminado)).

(** The status code of a finished run and the [status] of the task it sent. *)
Definition code_and_status {St : Type}
  (r : Outcome Response * St * list Event) : option Z * JsVal :=
  match fst (fst r) with
  | Done res =>
      (Some (statusCode res),
       match res_body res with
       | Some (SendJson (JObj t)) => prop t "status"
       | _ => JUndefined
       end)
  | Unhandled _ => (None, JUndefined)
  end.

(** [GET /tasks/1] with [Accept: text/html]. *)
Definition get_text_html : Request :=
  mkRequest {[ "Accept" := JStr "text/html" ]} ∅ "1".

(** ** Vocabulary of the further properties *)

(** [s] is a [;]-separated list one of whose items is [core], white space
    around it apart. *)
Definition has_segment (core s : string) : Prop :=
  exists segs seg l r,
    s = join ";" segs /\ Forall (fun x => has_char ";" x = false) segs /\
    In seg segs /\ seg = l ++ core ++ r /\ all_ws l = true /\ all_ws r = true.

(** The last of a list of strings gets [r] appended. *)
Fixpoint append_last (l : list string) (r : string) : list string :=
  match l with
  | [] => []
  | [x] => [x ++ r]
  | x :: rest => x :: append_last rest r
  end.

(** The name of a method, as the [Allow] header spells it. *)
Definition method_name (m : Method) : string :=
  match m with
  | OPTIONS => "OPTIONS"
  | GET => "GET"
  | POST => "POST"
  | PUT => "PUT"
  | DELETE => "DELETE"
  end.

(** The methods an OPTIONS response announces in its [Allow] header. *)
Definition allow_list (options : Response) : list string :=
  match res_headers options !! "Allow" with
  | Some a => split "," a
  | None => []
  end.

(** A collaborator call that changes the store. *)
Definition is_write (ev : Event) : bool :=
  match ev with
  | EvCreate _ _ | EvUpdate _ _ _ | EvErase _ _ => true
  | EvGetAll _ | EvGetOne _ _ | EvConsoleError _ => false
  end.

(** The attributes [crearTarea] reads off the body, lines 174-182. *)
Definition create_fields : list string :=
  ["tipo"; "ciudad"; "nombre_marca"; "description"; "precio"; "contacto";
   "longitud"; "latitud"; "galeria"].

(** [req] with the property [k] of its body set to [v]. *)
Definition with_body_field (k : string) (v : JsVal) (req : Request) : Request :=
  mkRequest (req_headers req) (<[k := v]> (req_body req)) (req_idTarea req).

(** A stored task that has no [status] property, and a store holding it. *)
Definition task_sin_status : Obj :=
  {[ "description" := JStr "buy milk"; "tipo" := JStr "casa";
     "date" := JDate 1000 ]}.

Definition store_sin_status : Store := mkStore {[ "1" := task_sin_status ]} 2 [].

(** * Properties *)

(** ** The header predicates on the examples of the specification *)

Example accept_json_charset :
  validAcceptHeader (JStr "application/json;charset=utf-8") = true.
Proof. reflexivity. Qed.

Example accept_text_html : validAcceptHeader (JStr "text/html") = false.
Proof. reflexivity. Qed.

Example accept_empty_string : validAcceptHeader (JStr "") = false.
Proof. reflexivity. Qed.

Example content_type_json : validContentTypeHeader (JStr "application/json") = true.
Proof. reflexivity. Qed.

Example content_type_text_plain : validContentTypeHeader (JStr "text/plain") = false.
Proof. reflexivity. Qed.

Example content_type_absent : validContentTypeHeader JUndefined = false.
Proof. reflexivity. Qed.

(** ** [split] and [join] *)

Lemma append_cons c x y : String c x ++ y = String c (x ++ y).
Proof. reflexivity. Qed.

Lemma append_empty_l x : EmptyString ++ x = x.
Proof. reflexivity. Qed.

Section SplitJoin.
Variable sep : ascii.

Lemma split_nonempty s : split sep s <> [].
Proof.
  destruct s as [|c s]; simpl; [discriminate|].
  destruct (Ascii.eqb c sep); [discriminate|].
  destruct (split sep s); discriminate.
Qed.

Lemma join_cons x y rest :
  join sep (x :: y :: rest) = x ++ String sep (join sep (y :: rest)).
Proof. reflexivity. Qed.

(** Joining the pieces gives the string back. *)
Lemma join_split s : join sep (split sep s) = s.
Proof.
  induction s as [|c s IH]; [reflexivity|].
  simpl. pose proof (split_nonempty s) as Hs.
  destruct (Ascii.eqb_spec c sep) as [->|Hne];
    destruct (split sep s) as [|seg rest]; try congruence.
  - rewrite join_cons, IH. reflexivity.
  - destruct rest as [|y rest].
    + simpl in *. congruence.
    + rewrite join_cons in *. rewrite <- IH. reflexivity.
Qed.

(** No piece holds the separator. *)
Lemma split_sep_free s :
  Forall (fun seg => has_char sep seg = false) (split sep s).
Proof.
  induction s as [|c s IH]; simpl.
  - constructor; [reflexivity | constructor].
  - destruct (Ascii.eqb c sep) eqn:Hc.
    + constructor; [reflexivity | exact IH].
    + destruct (split sep s) as [|seg rest].
      * constructor; [simpl; rewrite Hc; reflexivity | constructor].
      * inversion IH as [|? ? Hseg Hrest]; subst.
        constructor; [simpl; rewrite Hc; exact Hseg | exact Hrest].
Qed.

Lemma split_free x : has_char sep x = false -> split sep x = [x].
Proof.
  induction x as [|c x IH]; simpl; [reflexivity|].
  intros H. apply orb_false_iff in H as [Hc Hx].
  rewrite Hc, (IH Hx). reflexivity.
Qed.

Lemma split_app_sep x s :
  has_char sep x = false ->
  split sep (x ++ String sep s) = x :: split sep s.
Proof.
  induction x as [|c x IH]; simpl.
  - intros _. rewrite Ascii.eqb_refl. reflexivity.
  - intros H. apply orb_false_iff in H as [Hc Hx].
    rewrite Hc, (IH Hx). reflexivity.
Qed.

(** Splitting a joined list of separator-free pieces gives the pieces. *)
Lemma split_join l :
  l <> [] -> Forall (fun seg => has_char sep seg = false) l ->
  split sep (join sep l) = l.
Proof.
  induction l as [|x l IH]; [congruence|].
  intros _ Hall. inversion Hall as [|? ? Hx Hl]; subst.
  destruct l as [|y l].
  - simpl. apply split_free, Hx.
  - rewrite join_cons, split_app_sep by exact Hx.
    rewrite IH; [reflexivity | discriminate | exact Hl].
Qed.
End SplitJoin.

(** ** [trim] *)

Lemma trim_start_ws l x : all_ws l = true -> trim_start (l ++ x) = trim_start x.
Proof.
  induction l as [|c l IH]; simpl; [reflexivity|].
  intros H. apply andb_true_iff in H as [Hc Hl]. rewrite Hc. auto.
Qed.

Lemma trim_start_all_ws r : all_ws r = true -> trim_start r = EmptyString.
Proof.
  induction r as [|c r IH]; simpl; [reflexivity|].
  intros H. apply andb_true_iff in H as [Hc Hr]. rewrite Hc. auto.
Qed.

Lemma trim_start_app x r :
  trim_start (x ++ r) = if all_ws x then trim_start r else trim_start x ++ r.
Proof.
  induction x as [|c x IH]; simpl; [reflexivity|].
  destruct (is_ws c); simpl; [exact IH | reflexivity].
Qed.

Lemma trim_start_decomp s : exists l, all_ws l = true /\ s = l ++ trim_start s.
Proof.
  induction s as [|c s [l [Hl Hs]]]; simpl.
  - exists EmptyString. split; reflexivity.
  - destruct (is_ws c) eqn:Hc.
    + exists (String c l). simpl. rewrite Hc, Hl.
      split; [reflexivity | rewrite append_cons; congruence].
    + exists EmptyString. split; reflexivity.
Qed.

Lemma trim_end_all_ws r : all_ws r = true -> trim_end r = EmptyString.
Proof.
  induction r as [|c r IH]; simpl; [reflexivity|].
  intros H. apply andb_true_iff in H as [Hc Hr]. rewrite (IH Hr), Hc. reflexivity.
Qed.

Lemma trim_end_ws x r : all_ws r = true -> trim_end (x ++ r) = trim_end x.
Proof.
  intros Hr. induction x as [|c x IH]; simpl.
  - apply trim_end_all_ws, Hr.
  - rewrite IH. reflexivity.
Qed.

Lemma trim_end_decomp s : exists r, all_ws r = true /\ s = trim_end s ++ r.
Proof.
  induction s as [|c s [r [Hr Hs]]]; simpl.
  - exists EmptyString. split; reflexivity.
  - destruct (trim_end s) as [|d t] eqn:Ht.
    + destruct (is_ws c) eqn:Hc.
      * exists (String c r). simpl. rewrite Hc, Hr. split; [reflexivity|].
        rewrite append_empty_l in *. congruence.
      * exists r. split; [exact Hr|].
        rewrite append_cons, append_empty_l in *. congruence.
    + exists r. split; [exact Hr | rewrite append_cons; congruence].
Qed.

(** White space around a string does not change what [trim] gives. *)
Lemma trim_pad l x r :
  all_ws l = true -> all_ws r = true -> trim (l ++ x ++ r) = trim x.
Proof.
  intros Hl Hr. unfold trim. rewrite (trim_start_ws _ _ Hl), trim_start_app.
  destruct (all_ws x) eqn:Hx.
  - rewrite (trim_start_all_ws _ Hr), (trim_start_all_ws _ Hx). reflexivity.
  - apply trim_end_ws, Hr.
Qed.

(** A string is its [trim] with white space on both sides. *)
Lemma trim_decomp s :
  exists l r, all_ws l = true /\ all_ws r = true /\ s = l ++ trim s ++ r.
Proof.
  destruct (trim_start_decomp s) as [l [Hl Hs]].
  destruct (trim_end_decomp (trim_start s)) as [r [Hr Ht]].
  exists l, r. unfold trim. rewrite <- Ht. auto.
Qed.

(** What [h.split(";").map(h => h.trim()).includes(core)] decides. *)
Lemma str_includes_trim_split s core :
  trim core = core ->
  str_includes (map trim (split ";" s)) core = true <->
  exists segs seg l r,
    s = join ";" segs /\ Forall (fun x => has_char ";" x = false) segs /\
    In seg segs /\ seg = l ++ core ++ r /\ all_ws l = true /\ all_ws r = true.
Proof.
  intros Hcore. unfold str_includes. rewrite existsb_exists. split.
  - intros [y [Hy Heq]]. apply String.eqb_eq in Heq. subst y.
    apply in_map_iff in Hy as [seg [Hseg Hin]].
    destruct (trim_decomp seg) as [l [r [Hl [Hr Hd]]]].
    exists (split ";" s), seg, l, r. rewrite Hseg in Hd.
    repeat split; auto using join_split, split_sep_free.
  - intros [segs [seg [l [r [Hs [Hfree [Hin [Hseg [Hl Hr]]]]]]]]].
    exists core. split; [|apply String.eqb_refl].
    subst s. rewrite split_join; [| intros ->; contradiction | exact Hfree].
    apply in_map_iff. exists seg. split; [|exact Hin].
    subst seg. rewrite trim_pad by assumption. exact Hcore.
Qed.

(** ** Properties of records *)

Lemma prop_delete_ne (t : Obj) k k' : k <> k' -> prop (delete k t) k' = prop t k'.
Proof. intros H. unfold prop. rewrite lookup_delete_ne by exact H. reflexivity. Qed.

Lemma stamp_date now d (t : Obj) :
  prop (actualizarTarea_stamp now d t) "date" = JDate now.
Proof. unfold actualizarTarea_stamp, prop. rewrite lookup_insert_eq. reflexivity. Qed.

Lemma stamp_other now d (t : Obj) k :
  k <> "description" -> k <> "date" ->
  actualizarTarea_stamp now d t !! k = t !! k.
Proof.
  intros Hd Hdate. unfold actualizarTarea_stamp.
  rewrite lookup_insert_ne by congruence.
  destruct (truthy d); [rewrite lookup_insert_ne by congruence|]; reflexivity.
Qed.

Lemma stamp_falsy now d (t : Obj) :
  truthy d = false ->
  actualizarTarea_stamp now d t !! "description" = t !! "description".
Proof.
  intros Hd. unfold actualizarTarea_stamp. rewrite Hd.
  apply lookup_insert_ne. discriminate.
Qed.

(** ** The status block of [actualizarTarea] *)

(** Every [if] of the goal is decided both ways. *)
Ltac split_ifs :=
  repeat match goal with
         | |- context [if ?b then _ else _] => destruct b
         end.

(** The block leaves the record alone or assigns the requested status. *)
Lemma status_frame status (t t0 : Obj) :
  actualizarTarea_status status t = inr t0 ->
  t0 = t \/ t0 = <["status" := status]> t.
Proof.
  unfold actualizarTarea_status. split_ifs; intros H; inversion H; auto.
Qed.

Lemma status_keeps_description status (t t0 : Obj) :
  actualizarTarea_status status t = inr t0 ->
  t0 !! "description" = t !! "description".
Proof.
  intros H. apply status_frame in H as [-> | ->]; [reflexivity|].
  apply lookup_insert_ne. discriminate.
Qed.

(** Its rejections are envelopes with the message [Invalid Data]. *)
Lemma status_rejection status (t : Obj) rej :
  actualizarTarea_status status t = inl rej ->
  exists details, rej = SendEnvelope [Lit "Invalid Data"] details.
Proof.
  unfold actualizarTarea_status.
  split_ifs; intros H; inversion H; eexists; reflexivity.
Qed.

(** The transition table the block implements, on the three status values:
    only the crossing from one terminal state to the other is refused. *)
Lemma status_table old new (t : Obj) :
  prop t "status" = JStr (status_name old) ->
  actualizarTarea_status (JStr (status_name new)) t
  = if terminal old && terminal new && negb (status_eqb old new)
    then inl (IllegalTransition (JStr (status_name old)) (JStr (status_name new)))
    else inr (<["status" := JStr (status_name new)]> t).
Proof.
  intros Hold. unfold actualizarTarea_status. rewrite Hold.
  destruct old, new; reflexivity.
Qed.

(** A status that is none of the three strings is refused, whatever the
    fetched record. *)
Lemma status_invalid status (t : Obj) :
  truthy status = true ->
  includes [JStr "PENDIENTE"; JStr "TERMINADO"; JStr "CANCELADO"] status = false ->
  actualizarTarea_status status t = inl InvalidStatusValue.
Proof.
  intros Htruthy Hinc. unfold actualizarTarea_status.
  rewrite Htruthy, Hinc. reflexivity.
Qed.

(** ** The runs of the handlers, branch by branch *)

Section Runs.
Context {St : Type} (L : Logic St).
Variables (now : Z) (req : Request) (res : Response).

Lemma run_actualizarTarea st :
  run L (actualizarTarea now req res) st =
  if negb (validContentTypeHeader (header req "Content-Type")) then
    (Done (bad_request (InvalidContentType (header req "Content-Type")) res),
     st, [])
  else if negb (validAcceptHeader (header req "Accept")) then
    (Done (bad_request (MediaNotSupported (header req "Accept")) res), st, [])
  else if truthy (prop (req_body req) "description")
          && negb (is_string (prop (req_body req) "description")) then
    if toString_throws (prop (req_body req) "description") then
      (Unhandled (TypeError "Cannot convert object to primitive value"), st, [])
    else
      (Done (bad_request (InvalidAttribute (prop (req_body req) "description"))
                         res), st, [])
  else
    match getOne L (req_idTarea req) st with
    | (Rejected e, st1) =>
        (Done (bad_request (ResourceNotFound (req_idTarea req)) res), st1,
         [EvGetOne (req_idTarea req) (Rejected e)])
    | (Resolved t, st1) => update_result L now req res t st1
    end.
Proof.
  unfold actualizarTarea, update_result.
  destruct (negb (validContentTypeHeader _)); [reflexivity|].
  destruct (negb (validAcceptHeader _)); [reflexivity|].
  destruct (truthy _ && negb _); [destruct (toString_throws _); reflexivity|].
  cbn [run].
  destruct (getOne L (req_idTarea req) st) as [[t|e] st1]; [|reflexivity].
  destruct (actualizarTarea_status _ _) as [rej|t0]; [reflexivity|].
  cbn [run].
  destruct (update L _ _ st1) as [[w|e] st2]; [|reflexivity].
  cbn [run].
  destruct (getOne L (req_idTarea req) st2) as [[t2|e] st3]; reflexivity.
Qed.

Lemma run_crearTarea st :
  run L (crearTarea now req res) st =
  if negb (validContentTypeHeader (header req "Content-Type")) then
    (Done (bad_request (InvalidContentType (header req "Content-Type")) res),
     st, [])
  else if truthy (prop (req_body req) "description")
          && negb (is_string (prop (req_body req) "description")) then
    (Unhandled (ReferenceError "description"), st, [])
  else
    match create L (modeloACrear now (req_body req)) st with
    | (Resolved tareaCreada, st1) =>
        (Done (end_ (send (SendJson (JObj tareaCreada)) res)), st1,
         [EvCreate (modeloACrear now (req_body req)) (Resolved tareaCreada)])
    | (Rejected e, st1) =>
        (Unhandled e, st1,
         [EvCreate (modeloACrear now (req_body req)) (Rejected e)])
    end.
Proof.
  unfold crearTarea.
  destruct (negb (validContentTypeHeader _)); [reflexivity|].
  destruct (truthy _ && negb _); [reflexivity|].
  cbn [run].
  destruct (create L _ st) as [[tarea|e] st1]; reflexivity.
Qed.

(** The run of [actualizarTarea] on a request that passed the three checks
    and whose task was found. *)
Lemma run_validated st t st1 :
  validContentTypeHeader (header req "Content-Type") = true ->
  validAcceptHeader (header req "Accept") = true ->
  truthy (prop (req_body req) "description")
  && negb (is_string (prop (req_body req) "description")) = false ->
  getOne L (req_idTarea req) st = (Resolved t, st1) ->
  run L (actualizarTarea now req res) st = update_result L now req res t st1.
Proof.
  intros Hct Hacc Hdesc Hget.
  rewrite run_actualizarTarea, Hct, Hacc, Hdesc, Hget. reflexivity.
Qed.
End Runs.

(** A membership in an explicit list of events is split into its cases;
    those whose event has another shape are discarded. *)
Ltac event_cases H :=
  cbn [In snd] in H;
  repeat match type of H with
         | _ \/ _ => destruct H as [H | H]
         end;
  try contradiction; try discriminate H.

(** Closes a branch whose run ended in a rejection although the response is
    assumed to carry a JSON body. *)
Ltac rejected :=
  let H := fresh in
  let Hb := fresh in
  intros H Hb; inversion H; subst;
  cbv [bad_request end_ send set_statusCode res_body InvalidContentType
       MediaNotSupported InvalidAttribute ResourceNotFound PersistenceFailure]
    in Hb;
  discriminate Hb.

(** ** Status transitions of an update that reaches the status block *)

Section ValidatedUpdate.
Context {St : Type} (L : Logic St).
Variables (now : Z) (req : Request) (res : Response).
Variables (st st1 : St) (t : Obj).

(** The request passes the Content-Type, Accept and description checks,
    and the collaborator finds the task. *)
Hypothesis content_type_ok :
  validContentTypeHeader (header req "Content-Type") = true.
Hypothesis accept_ok : validAcceptHeader (header req "Accept") = true.
Hypothesis description_ok :
  truthy (prop (req_body req) "description")
  && negb (is_string (prop (req_body req) "description")) = false.
Hypothesis task_found : getOne L (req_idTarea req) st = (Resolved t, st1).

Lemma written_status status : prop (written now req t status) "status" = JStr status.
Proof.
  unfold written, prop. rewrite stamp_other by discriminate.
  rewrite lookup_insert_eq. reflexivity.
Qed.

(** Once the status block has let [status] through, the write is
    attempted, and the update succeeds when the write and the re-read
    do. *)
Lemma run_after_status status :
  actualizarTarea_status (prop (req_body req) "status") (delete "id" t)
  = inr (<["status" := JStr status]> (delete "id" t)) ->
  (exists w tr,
     snd (run L (actualizarTarea now req res) st)
     = EvGetOne (req_idTarea req) (Resolved t)
       :: EvUpdate (req_idTarea req) (written now req t status) w :: tr) /\
  (forall w st2 t2 st3,
     update L (req_idTarea req) (written now req t status) st1 = (Resolved w, st2) ->
     getOne L (req_idTarea req) st2 = (Resolved t2, st3) ->
     run L (actualizarTarea now req res) st
     = (Done (end_ (send (SendJson (JObj t2)) res)), st3,
        [EvGetOne (req_idTarea req) (Resolved t);
         EvUpdate (req_idTarea req) (written now req t status) (Resolved w);
         EvGetOne (req_idTarea req) (Resolved t2)])).
Proof.
  intros Hst.
  rewrite (run_validated L now req res st t st1) by assumption.
  unfold update_result. rewrite Hst. fold (written now req t status). split.
  - destruct (update L _ _ st1) as [[w|e] st2].
    + destruct (getOne L _ st2) as [[t2|e] st3]; eexists _, _; reflexivity.
    + eexists _, _; reflexivity.
  - intros w st2 t2 st3 Hupd Hget2. rewrite Hupd, Hget2. reflexivity.
Qed.

(** C8. For every existing task and each of the three status values, an
    update that requests the status the task already has passes the
    status block without any transition check: the record handed to the
    collaborator keeps that status and carries the time of the update in
    [date], the write is attempted whatever the status is, and the update
    succeeds as soon as the write and the re-read do. *)
Theorem update_own_status (s : Status) :
  prop t "status" = JStr (status_name s) ->
  prop (req_body req) "status" = JStr (status_name s) ->
  prop (written now req t (status_name s)) "status" = prop t "status" /\
  prop (written now req t (status_name s)) "date" = JDate now /\
  (exists w tr,
     snd (run L (actualizarTarea now req res) st)
     = EvGetOne (req_idTarea req) (Resolved t)
       :: EvUpdate (req_idTarea req) (written now req t (status_name s)) w :: tr) /\
  (forall w st2 t2 st3,
     update L (req_idTarea req) (written now req t (status_name s)) st1
     = (Resolved w, st2) ->
     getOne L (req_idTarea req) st2 = (Resolved t2, st3) ->
     run L (actualizarTarea now req res) st
     = (Done (end_ (send (SendJson (JObj t2)) res)), st3,
        [EvGetOne (req_idTarea req) (Resolved t);
         EvUpdate (req_idTarea req) (written now req t (status_name s)) (Resolved w);
         EvGetOne (req_idTarea req) (Resolved t2)])).
Proof.
  intros Hold Hreq.
  split; [rewrite written_status; symmetry; exact Hold|].
  split; [apply stamp_date|].
  apply run_after_status. rewrite Hreq, (status_table s s).
  - destruct s; reflexivity.
  - rewrite prop_delete_ne by discriminate. exact Hold.
Qed.

(** C1, as the code has it. For an existing task in a terminal state and a
    request for another of the three status values: a request for the
    other terminal state is rejected with the envelope of the illegal
    transition, and the collaborator's update is not called; a request for
    PENDIENTE is let through, the collaborator is asked to write the
    record with status PENDIENTE, and the update succeeds when the write
    and the re-read do. *)
Theorem terminal_transitions (old new : Status) :
  prop t "status" = JStr (status_name old) ->
  terminal old = true ->
  prop (req_body req) "status" = JStr (status_name new) ->
  new <> old ->
  (terminal new = true ->
   run L (actualizarTarea now req res) st
   = (Done (bad_request (IllegalTransition (JStr (status_name old))
                                           (JStr (status_name new))) res),
      st1, [EvGetOne (req_idTarea req) (Resolved t)])) /\
  (new = PENDIENTE ->
   prop (written now req t "PENDIENTE") "status" = JStr "PENDIENTE" /\
   (exists w tr,
      snd (run L (actualizarTarea now req res) st)
      = EvGetOne (req_idTarea req) (Resolved t)
        :: EvUpdate (req_idTarea req) (written now req t "PENDIENTE") w :: tr) /\
   (forall w st2 t2 st3,
      update L (req_idTarea req) (written now req t "PENDIENTE") st1
      = (Resolved w, st2) ->
      getOne L (req_idTarea req) st2 = (Resolved t2, st3) ->
      run L (actualizarTarea now req res) st
      = (Done (end_ (send (SendJson (JObj t2)) res)), st3,
         [EvGetOne (req_idTarea req) (Resolved t);
          EvUpdate (req_idTarea req) (written now req t "PENDIENTE") (Resolved w);
          EvGetOne (req_idTarea req) (Resolved t2)]))).
Proof.
  intros Hold Hterm Hreq Hne.
  assert (Hst := status_table old new (delete "id" t)).
  rewrite prop_delete_ne in Hst by discriminate. specialize (Hst Hold).
  split.
  - intros Hnew.
    rewrite (run_validated L now req res st t st1) by assumption.
    unfold update_result. rewrite Hreq, Hst, Hterm, Hnew.
    destruct old, new; try discriminate; try congruence; reflexivity.
  - intros ->. rewrite andb_false_r in Hst.
    cbn [andb status_name] in Hst, Hreq.
    split; [apply written_status|].
    apply run_after_status. rewrite Hreq. exact Hst.
Qed.
End ValidatedUpdate.

(** The task of [store_terminado] asked to stay TERMINADO: the update goes
    through and the re-read record has that status and the new date. *)
Lemma update_own_status_witness :
  exists t2,
    fst (fst (run memLogic (actualizarTarea 2000 (put_status "TERMINADO") res0)
                store_terminado))
    = Done (end_ (send (SendJson (JObj t2)) res0))
    /\ prop t2 "status" = JStr "TERMINADO" /\ prop t2 "date" = JDate 2000.
Proof.
  destruct (update_own_status memLogic 2000 (put_status "TERMINADO") res0
              store_terminado store_terminado
              (<["id" := JStr "1"]> task_terminado)
              eq_refl eq_refl eq_refl eq_refl TERMINADO eq_refl eq_refl)
    as (_ & _ & _ & Hrun).
  eexists. rewrite (Hrun tt _ _ _ eq_refl eq_refl).
  split; [reflexivity|]. split; vm_compute; reflexivity.
Defined.

(** TERMINADO to CANCELADO on the task of [store_terminado]: rejected, the
    store untouched. *)
Lemma terminal_transitions_witness :
  run memLogic (actualizarTarea 2000 (put_status "CANCELADO") res0)
    store_terminado
  = (Done (bad_request (IllegalTransition (JStr "TERMINADO") (JStr "CANCELADO"))
                       res0),
     store_terminado,
     [EvGetOne "1" (Resolved (<["id" := JStr "1"]> task_terminado))]).
Proof.
  apply (terminal_transitions memLogic 2000 (put_status "CANCELADO") res0
           store_terminado store_terminado
           (<["id" := JStr "1"]> task_terminado)
           eq_refl eq_refl eq_refl eq_refl TERMINADO CANCELADO);
    try reflexivity; discriminate.
Defined.

(** C1 fails as stated: a task whose stored status is TERMINADO is asked
    to become PENDIENTE; the update answers 200 with the updated task and
    the stored status is PENDIENTE afterwards. *)
Lemma terminado_to_pendiente_accepted :
  stored_status store_terminado = JStr "TERMINADO" /\
  exists t2 st' tr,
    run memLogic (actualizarTarea 2000 (put_status "PENDIENTE") res0)
      store_terminado
    = (Done (end_ (send (SendJson (JObj t2)) res0)), st', tr) /\
    statusCode (end_ (send (SendJson (JObj t2)) res0)) = 200 /\
    prop t2 "status" = JStr "PENDIENTE" /\
    stored_status st' = JStr "PENDIENTE".
Proof.
  split; [reflexivity|]. eexists _, _, _. split; [reflexivity|].
  repeat split; reflexivity.
Qed.

(** ** What an update writes *)

(** C10. Every successful update made exactly three collaborator calls: the
    read of the task, one write addressed to the same identifier, and the
    re-read whose result is sent. The record written has no [id] property,
    and each of its properties other than [id], [status], [description] and
    [date] is as in the record that was read. *)
Theorem update_frame {St : Type} (L : Logic St) (now : Z) (req : Request)
  (res res' : Response) (st st' : St) (tr : list Event) (v : JsVal) :
  run L (actualizarTarea now req res) st = (Done res', st', tr) ->
  res_body res' = Some (SendJson v) ->
  exists t record w t2,
    tr = [EvGetOne (req_idTarea req) (Resolved t);
          EvUpdate (req_idTarea req) record (Resolved w);
          EvGetOne (req_idTarea req) (Resolved t2)] /\
    v = JObj t2 /\
    record !! "id" = None /\
    forall k, k <> "id" -> k <> "status" -> k <> "description" -> k <> "date" ->
              record !! k = t !! k.
Proof.
  rewrite run_actualizarTarea.
  destruct (negb (validContentTypeHeader _)); [rejected|].
  destruct (negb (validAcceptHeader _)); [rejected|].
  destruct (truthy _ && negb _); [destruct (toString_throws _); rejected|].
  destruct (getOne L (req_idTarea req) st) as [[t|e] st1]; [|rejected].
  unfold update_result.
  destruct (actualizarTarea_status _ _) as [rej|t0] eqn:Hst.
  { apply status_rejection in Hst as (details & ->). rejected. }
  destruct (update L _ _ st1) as [[w|e] st2]; [|rejected].
  destruct (getOne L (req_idTarea req) st2) as [[t2|e] st3]; [|rejected].
  intros H Hb. inversion H; subst. cbn in Hb. inversion Hb; subst.
  eexists t, _, w, t2.
  split; [reflexivity|]. split; [reflexivity|].
  apply status_frame in Hst. split.
  - rewrite stamp_other by discriminate.
    destruct Hst as [-> | ->];
      [|rewrite lookup_insert_ne by discriminate]; apply lookup_delete_eq.
  - intros k Hid Hstatus Hdesc Hdate. rewrite stamp_other by assumption.
    destruct Hst as [-> | ->];
      [|rewrite lookup_insert_ne by congruence];
      apply lookup_delete_ne; congruence.
Qed.

(** PENDIENTE to TERMINADO on a stored task: the record written has no
    [id] and keeps the [tipo] that was read. *)
Lemma update_frame_witness :
  exists t record w t2,
    snd (run memLogic (actualizarTarea 2000 (put_status "TERMINADO") res0)
           store_pendiente)
    = [EvGetOne "1" (Resolved t); EvUpdate "1" record (Resolved w);
       EvGetOne "1" (Resolved t2)] /\
    record !! "id" = None /\ record !! "tipo" = t !! "tipo".
Proof.
  destruct (update_frame memLogic 2000 (put_status "TERMINADO") res0 _
              store_pendiente _ _ _ eq_refl eq_refl)
    as (t & record & w & t2 & Htr & _ & Hid & Hframe).
  exists t, record, w, t2. split; [exact Htr|]. split; [exact Hid|].
  apply Hframe; discriminate.
Defined.

(** ** Persistence failures during an update *)

(** C4, as the code has it. Whenever the collaborator rejects the write of
    an update, or resolves it and rejects the re-read, the handler answers
    with the envelope of the persistence failure, logs the error, and calls
    the collaborator no further: the store it leaves is the one the
    rejected call left. After a rejected write that is the store the write
    itself left; after a rejected re-read it is the store that follows the
    resolved write, which nothing undoes. *)
Theorem update_persistence_failure {St : Type} (L : Logic St) (now : Z)
  (req : Request) (res : Response) (st st' : St) (out : Outcome Response)
  (tr : list Event) (id' : string) (record : Obj) :
  run L (actualizarTarea now req res) st = (out, st', tr) ->
  (forall e, In (EvUpdate id' record (Rejected e)) tr ->
     out = Done (bad_request (PersistenceFailure (req_idTarea req)) res) /\
     exists t st1,
       getOne L (req_idTarea req) st = (Resolved t, st1) /\
       update L (req_idTarea req) record st1 = (Rejected e, st') /\
       exists line,
         tr = [EvGetOne (req_idTarea req) (Resolved t);
               EvUpdate (req_idTarea req) record (Rejected e);
               EvConsoleError line]) /\
  (forall w e, In (EvUpdate id' record (Resolved w)) tr ->
     In (EvGetOne id' (Rejected e)) tr ->
     out = Done (bad_request (PersistenceFailure (req_idTarea req)) res) /\
     exists t st1 st2,
       getOne L (req_idTarea req) st = (Resolved t, st1) /\
       update L (req_idTarea req) record st1 = (Resolved w, st2) /\
       getOne L (req_idTarea req) st2 = (Rejected e, st') /\
       exists line,
         tr = [EvGetOne (req_idTarea req) (Resolved t);
               EvUpdate (req_idTarea req) record (Resolved w);
               EvGetOne (req_idTarea req) (Rejected e);
               EvConsoleError line]).
Proof.
  intros Hrun. rewrite run_actualizarTarea in Hrun.
  destruct (negb (validContentTypeHeader _));
    [inversion Hrun; subst; split; intros; event_cases H|].
  destruct (negb (validAcceptHeader _));
    [inversion Hrun; subst; split; intros; event_cases H|].
  destruct (truthy _ && negb _);
    [destruct (toString_throws _);
     inversion Hrun; subst; split; intros; event_cases H|].
  destruct (getOne L (req_idTarea req) st) as [[t|e0] st1] eqn:Hget;
    [|inversion Hrun; subst; split; intros; event_cases H].
  unfold update_result in Hrun.
  destruct (actualizarTarea_status _ _) as [rej|t0];
    [inversion Hrun; subst; split; intros; event_cases H|].
  destruct (update L (req_idTarea req) _ st1) as [[w0|e0] st2] eqn:Hupd.
  - destruct (getOne L (req_idTarea req) st2) as [[t2|e2] st3] eqn:Hget2;
      inversion Hrun; subst; split.
    + intros e H. event_cases H.
    + intros w e H H0. event_cases H. event_cases H0.
    + intros e H. event_cases H.
    + intros w e H H0. event_cases H. inversion H; subst.
      event_cases H0. inversion H0; subst.
      split; [reflexivity|]. eexists _, _, _. repeat split; eauto.
  - inversion Hrun; subst; split.
    + intros e H. event_cases H. inversion H; subst.
      split; [reflexivity|]. eexists _, _. repeat split; eauto.
    + intros w e H H0. event_cases H.
Qed.

(** The run on [store_reread_fails]: the write of status TERMINADO resolves,
    the re-read is rejected, and the store the run leaves holds the written
    record. *)
Lemma update_persistence_failure_witness :
  exists t st1 st2,
    getOne memLogic "1" store_reread_fails = (Resolved t, st1) /\
    update memLogic "1"
      (written 2000 (put_status "TERMINADO")
         (<["id" := JStr "1"]> task_pendiente) "TERMINADO") st1
    = (Resolved tt, st2) /\
    getOne memLogic "1" st2
    = (Rejected PersistenceError,
       mkStore {[ "1" := written 2000 (put_status "TERMINADO")
                           (<["id" := JStr "1"]> task_pendiente) "TERMINADO" ]}
               2 []).
Proof.
  destruct (update_persistence_failure memLogic 2000 (put_status "TERMINADO")
              res0 store_reread_fails _ _ _ "1"
              (written 2000 (put_status "TERMINADO")
                 (<["id" := JStr "1"]> task_pendiente) "TERMINADO")
              eq_refl) as [_ H].
  destruct (H tt PersistenceError) as (_ & t & st1 & st2 & H1 & H2 & H3 & _).
  - cbn [In]. right. left. vm_compute. reflexivity.
  - cbn [In]. right. right. left. reflexivity.
  - exists t, st1, st2. repeat split; assumption.
Defined.

(** C4 fails as stated: on [store_reread_fails] the update of task "1" to
    TERMINADO answers with the persistence failure, and the stored record
    is no longer the one from before the request: its status went from
    PENDIENTE to TERMINADO. *)
Lemma reread_failure_keeps_write :
  exists st' tr,
    run memLogic (actualizarTarea 2000 (put_status "TERMINADO") res0)
      store_reread_fails
    = (Done (bad_request (PersistenceFailure "1") res0), st', tr) /\
    stored_status store_reread_fails = JStr "PENDIENTE" /\
    stored_status st' = JStr "TERMINADO" /\
    tasks st' <> tasks store_reread_fails.
Proof.
  eexists _, _. split; [reflexivity|]. split; [reflexivity|].
  split; [reflexivity|].
  intros H. apply (f_equal (fun m => m !! "1" ≫= (.!! "status"))) in H.
  vm_compute in H. discriminate H.
Qed.

(** ** Updates addressed to an identifier that does not resolve *)

(** C7, as the code has it. When the collaborator does not find the
    identifier of an update, its update operation is never called; and when
    the request passes the Content-Type, Accept and description checks,
    which come first, the answer is the envelope of the resource that was
    not found, after the single call that looked for it. *)
Theorem update_missing_id {St : Type} (L : Logic St) (now : Z)
  (req : Request) (res : Response) (st st1 : St) (e : Exn) :
  getOne L (req_idTarea req) st = (Rejected e, st1) ->
  (forall id' record w,
     ~ In (EvUpdate id' record w)
          (snd (run L (actualizarTarea now req res) st))) /\
  (validContentTypeHeader (header req "Content-Type") = true ->
   validAcceptHeader (header req "Accept") = true ->
   truthy (prop (req_body req) "description")
   && negb (is_string (prop (req_body req) "description")) = false ->
   run L (actualizarTarea now req res) st
   = (Done (bad_request (ResourceNotFound (req_idTarea req)) res), st1,
      [EvGetOne (req_idTarea req) (Rejected e)])).
Proof.
  intros Hget. rewrite run_actualizarTarea, Hget. split.
  - intros id' record w H.
    destruct (negb (validContentTypeHeader _)); [event_cases H|].
    destruct (negb (validAcceptHeader _)); [event_cases H|].
    destruct (truthy _ && negb _); [destruct (toString_throws _)|];
      event_cases H.
  - intros -> -> ->. reflexivity.
Qed.

(** [PUT /tasks/doesnotexist] with a JSON body on [store_terminado]. *)
Lemma update_missing_id_witness :
  run memLogic (actualizarTarea 2000 put_missing res0) store_terminado
  = (Done (bad_request (ResourceNotFound "doesnotexist") res0), store_terminado,
     [EvGetOne "doesnotexist" (Rejected (NotFound "doesnotexist"))]).
Proof.
  apply (update_missing_id memLogic 2000 put_missing res0 store_terminado
           store_terminado (NotFound "doesnotexist") eq_refl); reflexivity.
Defined.

(** C7 fails as stated: the same update without a Content-Type header is
    answered with the envelope of the invalid Content-Type, although the
    identifier does not resolve. *)
Lemma missing_id_other_error :
  getOne memLogic "doesnotexist" store_terminado
  = (Rejected (NotFound "doesnotexist"), store_terminado) /\
  run memLogic (actualizarTarea 2000 put_no_content_type res0) store_terminado
  = (Done (bad_request (InvalidContentType JUndefined) res0),
     store_terminado, []) /\
  InvalidContentType JUndefined <> ResourceNotFound "doesnotexist".
Proof.
  split; [reflexivity|]. split; [reflexivity|]. discriminate.
Qed.

(** ** The check of the [description] attribute *)

(** C6, on the code. Both handlers test the type of [description] only
    when it is truthy, so no falsy value is ever rejected: with a falsy
    [description] (absent, [null], [false], [0], the empty string) an
    update is never answered with the envelope of the invalid attribute
    and whatever it writes keeps the description that was read, and a
    creation whose Content-Type check passed reaches the collaborator with
    the value copied as it is. An update that passes the header checks
    and carries a truthy [description] that is no string is answered with
    that envelope before any collaborator call when the value can be
    rendered into the message, and throws the TypeError of that rendering,
    unhandled, when it cannot. *)
Theorem description_shape_check {St : Type} (L : Logic St) (now : Z)
  (req : Request) (res : Response) (st : St) :
  (validContentTypeHeader (header req "Content-Type") = true ->
   validAcceptHeader (header req "Accept") = true ->
   truthy (prop (req_body req) "description") = true ->
   is_string (prop (req_body req) "description") = false ->
   run L (actualizarTarea now req res) st
   = if toString_throws (prop (req_body req) "description")
     then (Unhandled (TypeError "Cannot convert object to primitive value"),
           st, [])
     else (Done (bad_request
                   (InvalidAttribute (prop (req_body req) "description")) res),
           st, [])) /\
  (truthy (prop (req_body req) "description") = false ->
   (forall v, sent_body (run L (actualizarTarea now req res) st)
              <> Some (InvalidAttribute v)) /\
   (forall id' record w,
      In (EvUpdate id' record w)
         (snd (run L (actualizarTarea now req res) st)) ->
      exists t st1,
        getOne L (req_idTarea req) st = (Resolved t, st1) /\
        record !! "description" = t !! "description") /\
   (validContentTypeHeader (header req "Content-Type") = true ->
    exists r st1,
      create L (modeloACrear now (req_body req)) st = (r, st1) /\
      snd (run L (crearTarea now req res) st)
      = [EvCreate (modeloACrear now (req_body req)) r] /\
      prop (modeloACrear now (req_body req)) "description"
      = prop (req_body req) "description")).
Proof.
  split.
  - intros Hct Hacc Htruthy Hstr.
    rewrite run_actualizarTarea, Hct, Hacc, Htruthy, Hstr. reflexivity.
  - intros Hfalsy. split; [|split].
    + intros v. rewrite run_actualizarTarea, Hfalsy. cbn [andb].
      destruct (negb (validContentTypeHeader _)); [discriminate|].
      destruct (negb (validAcceptHeader _)); [discriminate|].
      destruct (getOne L (req_idTarea req) st) as [[t|e] st1]; [|discriminate].
      unfold update_result.
      destruct (actualizarTarea_status _ _) as [rej|t0] eqn:Hst.
      { apply status_rejection in Hst as (details & ->).
        intros H. vm_compute in H. discriminate H. }
      destruct (update L _ _ st1) as [[w|e] st2];
        [|intros H; vm_compute in H; discriminate H].
      destruct (getOne L (req_idTarea req) st2) as [[t2|e] st3];
        [discriminate | intros H; vm_compute in H; discriminate H].
    + intros id' record w. rewrite run_actualizarTarea, Hfalsy. cbn [andb].
      destruct (negb (validContentTypeHeader _)); [intros H; event_cases H|].
      destruct (negb (validAcceptHeader _)); [intros H; event_cases H|].
      destruct (getOne L (req_idTarea req) st) as [[t|e] st1];
        [|intros H; event_cases H].
      unfold update_result.
      destruct (actualizarTarea_status _ _) as [rej|t0] eqn:Hst;
        [intros H; event_cases H|].
      assert (Hrec : actualizarTarea_stamp now
                       (prop (req_body req) "description") t0 !! "description"
                     = t !! "description").
      { rewrite (stamp_falsy _ _ _ Hfalsy), (status_keeps_description _ _ _ Hst).
        apply lookup_delete_ne. discriminate. }
      destruct (update L _ _ st1) as [[w0|e] st2].
      * destruct (getOne L (req_idTarea req) st2) as [[t2|e] st3];
          intros H; event_cases H; inversion H; subst; eauto.
      * intros H; event_cases H; inversion H; subst; eauto.
    + intros Hct. rewrite run_crearTarea, Hct, Hfalsy. cbn [andb negb].
      destruct (create L _ st) as [[tarea|e] st1]; eexists _, _;
        (split; [reflexivity|]); split; reflexivity.
Qed.

(** An update whose [description] is the number 0 is not answered with
    the envelope of the invalid attribute. *)
Lemma description_shape_check_witness :
  sent_body (run memLogic (actualizarTarea 2000 (put_description (JNum "0")) res0)
               store_terminado)
  <> Some (InvalidAttribute (JNum "0")).
Proof.
  destruct (description_shape_check memLogic 2000 (put_description (JNum "0"))
              res0 store_terminado) as [_ H].
  destruct (H eq_refl) as [Hne _]. apply Hne.
Defined.

(** The same update, run: the body supplies [description: 0], which is no
    text, and the answer is 200 with the task, its description untouched. *)
Example description_zero_accepted :
  req_body (put_description (JNum "0")) !! "description" = Some (JNum "0") /\
  is_string (JNum "0") = false /\
  exists t2 st' tr,
    run memLogic (actualizarTarea 2000 (put_description (JNum "0")) res0)
      store_terminado
    = (Done (end_ (send (SendJson (JObj t2)) res0)), st', tr) /\
    statusCode (end_ (send (SendJson (JObj t2)) res0)) = 200 /\
    prop t2 "description" = JStr "buy milk".
Proof.
  split; [reflexivity|]. split; [reflexivity|].
  eexists _, _, _. split; [reflexivity|]. split; reflexivity.
Qed.

(** A description that is rendered, and one that is not. *)
Example description_rendered_or_not :
  run memLogic (actualizarTarea 2000 (put_description (JNum "5")) res0)
    store_terminado
  = (Done (bad_request (InvalidAttribute (JNum "5")) res0), store_terminado, [])
  /\
  run memLogic
    (actualizarTarea 2000 (put_description (JObj {[ "toString" := JNum "5" ]}))
       res0) store_terminado
  = (Unhandled (TypeError "Cannot convert object to primitive value"),
     store_terminado, []).
Proof. split; reflexivity. Qed.

(** ** Creation *)

(** The record a creation hands to the collaborator has no [status]
    property: its properties are the nine descriptive attributes and
    [date]. What the handler sends is the record the collaborator resolved
    with, unchanged, so the status of a new task is the collaborator's to
    give. *)
Lemma create_record_has_no_status {St : Type} (L : Logic St) (now : Z)
  (req : Request) (res : Response) (st : St) :
  validContentTypeHeader (header req "Content-Type") = true ->
  truthy (prop (req_body req) "description")
  && negb (is_string (prop (req_body req) "description")) = false ->
  exists record r st1,
    create L record st = (r, st1) /\
    run L (crearTarea now req res) st
    = (match r with
       | Resolved tareaCreada =>
           Done (end_ (send (SendJson (JObj tareaCreada)) res))
       | Rejected e => Unhandled e
       end, st1, [EvCreate record r]) /\
    record !! "status" = None /\
    dom record = list_to_set ["tipo"; "ciudad"; "nombre_marca"; "description";
                              "precio"; "contacto"; "longitud"; "latitud";
                              "galeria"; "date"].
Proof.
  intros Hct Hdesc. rewrite run_crearTarea, Hct, Hdesc. cbn [negb].
  destruct (create L _ st) as [r st1] eqn:Hc.
  exists (modeloACrear now (req_body req)), r, st1.
  split; [exact Hc|]. split; [destruct r; reflexivity|].
  split; [reflexivity|].
  unfold modeloACrear. rewrite !dom_insert_L, dom_singleton_L.
  cbn [list_to_set foldr]. set_solver.
Qed.

(** What the reference collaborator does with a creation that no fault
    hits: the record is stored under the next identifier, with the default
    status, and comes back with its identifier. *)
Lemma memLogic_create (record : Obj) (st : Store) :
  next_call_fails st = false ->
  record !! "status" = None ->
  exists st',
    create memLogic record st
    = (Resolved (<["id" := JStr (pretty (next_id st))]>
                   (<["status" := JStr "PENDIENTE"]> record)), st') /\
    tasks st' !! pretty (next_id st)
    = Some (<["status" := JStr "PENDIENTE"]> record).
Proof.
  intros Hfault Hstatus. unfold memLogic, create, with_fault, next_call_fails in *.
  destruct (faults st) as [|[|] rest]; try discriminate Hfault;
    cbn [tasks next_id faults]; rewrite Hstatus; eexists;
    (split; [reflexivity|]); cbn [tasks]; apply lookup_insert_eq.
Qed.

(** C2. Against the reference collaborator, every creation that passes the
    checks of [crearTarea] and that no fault hits is answered with a task
    whose status is PENDIENTE, and the record stored for it has that status
    too, whether or not the body names a status: the handler hands over a
    record without status and the collaborator supplies the default. *)
Theorem create_returns_pendiente (now : Z) (req : Request) (res : Response)
  (st : Store) :
  validContentTypeHeader (header req "Content-Type") = true ->
  truthy (prop (req_body req) "description")
  && negb (is_string (prop (req_body req) "description")) = false ->
  next_call_fails st = false ->
  exists tareaCreada st' stored,
    run memLogic (crearTarea now req res) st
    = (Done (end_ (send (SendJson (JObj tareaCreada)) res)), st',
       [EvCreate (modeloACrear now (req_body req)) (Resolved tareaCreada)]) /\
    prop tareaCreada "status" = JStr "PENDIENTE" /\
    prop tareaCreada "id" = JStr (pretty (next_id st)) /\
    tasks st' !! pretty (next_id st) = Some stored /\
    prop stored "status" = JStr "PENDIENTE" /\
    modeloACrear now (req_body req) !! "status" = None.
Proof.
  intros Hct Hdesc Hfault.
  destruct (memLogic_create (modeloACrear now (req_body req)) st Hfault eq_refl)
    as (st' & Hcreate & Hstored).
  rewrite run_crearTarea, Hct, Hdesc, Hcreate. cbn [negb].
  eexists _, st', _. split; [reflexivity|].
  split; [|split; [|split; [exact Hstored|split; [|reflexivity]]]].
  - unfold prop. rewrite lookup_insert_ne by discriminate.
    rewrite lookup_insert_eq. reflexivity.
  - unfold prop. rewrite lookup_insert_eq. reflexivity.
  - unfold prop. rewrite lookup_insert_eq. reflexivity.
Qed.

(** [POST /tasks] with [{description: "buy milk"}] on the empty store. *)
Lemma create_returns_pendiente_witness :
  exists tareaCreada st',
    run memLogic (crearTarea 2000 (post_description (JStr "buy milk")) res0)
      store_empty
    = (Done (end_ (send (SendJson (JObj tareaCreada)) res0)), st',
       [EvCreate (modeloACrear 2000 (req_body (post_description (JStr "buy milk"))))
          (Resolved tareaCreada)]) /\
    prop tareaCreada "status" = JStr "PENDIENTE".
Proof.
  destruct (create_returns_pendiente 2000 (post_description (JStr "buy milk"))
              res0 store_empty eq_refl eq_refl eq_refl)
    as (tarea & st' & stored & Hrun & Hstatus & _).
  exists tarea, st'. split; assumption.
Defined.

(** C3, on the code. A creation whose Content-Type is valid and whose body
    carries a truthy [description] that is not a string sends nothing: the
    handler throws the ReferenceError of line 167, which no [try] surrounds,
    without calling the collaborator. *)
Theorem crearTarea_reference_error {St : Type} (L : Logic St) (now : Z)
  (req : Request) (res : Response) (st : St) :
  validContentTypeHeader (header req "Content-Type") = true ->
  truthy (prop (req_body req) "description") = true ->
  is_string (prop (req_body req) "description") = false ->
  run L (crearTarea now req res) st
  = (Unhandled (ReferenceError "description"), st, []).
Proof.
  intros Hct Htruthy Hstr. rewrite run_crearTarea, Hct, Htruthy, Hstr.
  reflexivity.
Qed.

(** [POST /tasks] with [{description: 5}]. *)
Lemma crearTarea_reference_error_witness :
  run memLogic (crearTarea 2000 (post_description (JNum "5")) res0) store_empty
  = (Unhandled (mkExn "ReferenceError" "description is not defined"),
     store_empty, []).
Proof.
  apply (crearTarea_reference_error memLogic 2000 (post_description (JNum "5"))
           res0 store_empty); reflexivity.
Defined.

(** A rejection of [getAll] or of [create] leaves [obtenerTareas] and
    [crearTarea] the same way: nothing catches it. *)
Lemma uncaught_rejections {St : Type} (L : Logic St) now req res st e st1 :
  (validAcceptHeader (header req "Accept") = true ->
   getAll L st = (Rejected e, st1) ->
   fst (fst (run L (obtenerTareas req res) st)) = Unhandled e) /\
  (validContentTypeHeader (header req "Content-Type") = true ->
   truthy (prop (req_body req) "description")
   && negb (is_string (prop (req_body req) "description")) = false ->
   create L (modeloACrear now (req_body req)) st = (Rejected e, st1) ->
   fst (fst (run L (crearTarea now req res) st)) = Unhandled e).
Proof.
  split.
  - intros Hacc Hget. unfold obtenerTareas. rewrite Hacc. cbn [negb run].
    rewrite Hget. reflexivity.
  - intros Hct Hdesc Hc. rewrite run_crearTarea, Hct, Hdesc, Hc. reflexivity.
Qed.

(** ** Reading one task *)

(** C9, on the code. [GET /tasks/:idTarea] never looks at the Accept
    header: with a header that [validAcceptHeader] refuses and a task the
    collaborator finds, the route answers 200 with the task. *)
Theorem obtenerTarea_ignores_accept {St : Type} (L : Logic St) (now : Z)
  (req : Request) (res : Response) (st st1 : St) (t : Obj) :
  validAcceptHeader (header req "Accept") = false ->
  getOne L (req_idTarea req) st = (Resolved t, st1) ->
  run L (route_idTarea GET now req res) st
  = (Done (end_ (send (SendJson (JObj t)) (allRequest res))), st1,
     [EvGetOne (req_idTarea req) (Resolved t)])
  /\ statusCode (end_ (send (SendJson (JObj t)) (allRequest res))) = 200.
Proof.
  intros _ Hget. split; [|reflexivity].
  unfold route_idTarea, obtenerTarea. cbn [run]. rewrite Hget. reflexivity.
Qed.

(** [GET /tasks/1] with [Accept: text/html] on [store_terminado]. *)
Lemma obtenerTarea_ignores_accept_witness :
  run memLogic (route_idTarea GET 2000 get_text_html fresh_response)
    store_terminado
  = (Done (end_ (send (SendJson (JObj (<["id" := JStr "1"]> task_terminado)))
                      res0)),
     store_terminado,
     [EvGetOne "1" (Resolved (<["id" := JStr "1"]> task_terminado))])
  /\ statusCode (end_ (send (SendJson (JObj (<["id" := JStr "1"]> task_terminado)))
                            res0)) = 200.
Proof.
  apply (obtenerTarea_ignores_accept memLogic 2000 get_text_html fresh_response
           store_terminado store_terminado); reflexivity.
Defined.

(** The scenario of the specification on the reference collaborator:
    a task is created from [{description: "buy milk"}], set to TERMINADO,
    and then refused the move to CANCELADO. *)
Example scenario_lifecycle :
  code_and_status after_create = (Some 200, JStr "PENDIENTE") /\
  code_and_status after_terminado = (Some 200, JStr "TERMINADO") /\
  sent_body after_cancelado
  = Some (IllegalTransition (JStr "TERMINADO") (JStr "CANCELADO")) /\
  fst (code_and_status after_cancelado) = Some 400 /\
  snd (fst after_cancelado) = snd (fst after_terminado).
Proof. repeat split; vm_compute; reflexivity. Qed.

(** The sibling route [GET /tasks] does refuse the same header. *)
Example obtenerTareas_checks_accept :
  run memLogic (route_root GET 2000 get_text_html fresh_response) store_terminado
  = (Done (bad_request (MediaNotSupported (JStr "text/html")) res0),
     store_terminado, []).
Proof. reflexivity. Qed.

(** ** The Accept header *)

Lemma validAcceptHeader_string s :
  validAcceptHeader (JStr s) = true <-> lists_media_type s.
Proof.
  unfold validAcceptHeader, lists_media_type.
  replace (negb (truthy (JStr s)) && negb (strict_equals (JStr s) (JStr "")))
    with false by (destruct s; reflexivity).
  pose proof (str_includes_trim_split s "application/json" eq_refl) as Hjson.
  pose proof (str_includes_trim_split s "*/*" eq_refl) as Hany.
  cbv zeta.
  destruct (str_includes (map trim (split ";" s)) "application/json") eqn:Ej.
  - cbn [orb]. split; [intros _|reflexivity].
    destruct (proj1 Hjson eq_refl) as (segs & seg & l & r & H).
    exists segs, seg, l, r, "application/json". intuition.
  - destruct (str_includes (map trim (split ";" s)) "*/*") eqn:Ea.
    + cbn [orb]. split; [intros _|reflexivity].
      destruct (proj1 Hany eq_refl) as (segs & seg & l & r & H).
      exists segs, seg, l, r, "*/*". intuition.
    + cbn [orb]. split; [discriminate|].
      intros (segs & seg & l & r & core & H1 & H2 & H3 & H4 & H5 & H6
              & [-> | ->]).
      * apply Hjson. exists segs, seg, l, r. repeat split; assumption.
      * apply Hany. exists segs, seg, l, r. repeat split; assumption.
Qed.

Lemma validAcceptHeader_non_string h :
  is_string h = false -> validAcceptHeader h = negb (truthy h).
Proof.
  destruct h; intros Hstr; try discriminate Hstr; unfold validAcceptHeader;
    cbn [strict_equals]; rewrite ?andb_true_r;
    destruct (truthy _); reflexivity.
Qed.

(** C5, as the code has it. [validAcceptHeader] accepts exactly the falsy
    values that are not strings (an absent header among them) and the
    strings that, cut at every [;], have an item equal to
    [application/json] or to [*/*] once the white space around it is
    removed, at whatever position. It accepts
    [application/json;charset=utf-8] and a missing header and refuses
    [text/html]. A refused header makes [GET /tasks], and an update whose
    Content-Type is valid, answer with the envelope of the unsupported
    media, which carries the header value. *)
Theorem accept_header_check :
  (forall h : JsVal,
     validAcceptHeader h = true <->
     (is_string h = false /\ truthy h = false)
     \/ (exists s, h = JStr s /\ lists_media_type s)) /\
  validAcceptHeader (JStr "application/json;charset=utf-8") = true /\
  validAcceptHeader (JStr "text/html") = false /\
  validAcceptHeader JUndefined = true /\
  (forall (St : Type) (L : Logic St) now req res st,
     validAcceptHeader (header req "Accept") = false ->
     run L (obtenerTareas req res) st
     = (Done (bad_request (MediaNotSupported (header req "Accept")) res), st, [])
     /\ (validContentTypeHeader (header req "Content-Type") = true ->
         run L (actualizarTarea now req res) st
         = (Done (bad_request (MediaNotSupported (header req "Accept")) res),
            st, []))).
Proof.
  split; [|split; [reflexivity|split; [reflexivity|split; [reflexivity|]]]].
  - intros h. destruct (is_string h) eqn:Hstr.
    + destruct h; try discriminate Hstr. rewrite validAcceptHeader_string. split.
      * intros H. right. eexists. eauto.
      * intros [[H _] | (s' & [= <-] & H)]; [discriminate H | exact H].
    + rewrite (validAcceptHeader_non_string h Hstr). split.
      * intros H. left. split; [reflexivity|]. apply negb_true_iff, H.
      * intros [[_ H] | (s' & -> & _)]; [|discriminate Hstr].
        apply negb_true_iff, H.
  - intros St L now req res st Hacc. split.
    + unfold obtenerTareas. rewrite Hacc. reflexivity.
    + intros Hct. rewrite run_actualizarTarea, Hct, Hacc. reflexivity.
Qed.

(** A header that names [application/json] second, after a space. *)
Lemma accept_header_check_witness :
  validAcceptHeader (JStr "text/html; application/json") = true.
Proof.
  apply (proj1 accept_header_check). right.
  exists "text/html; application/json". split; [reflexivity|].
  exists ["text/html"; " application/json"], " application/json", " ", "",
         "application/json".
  repeat split; try reflexivity.
  - repeat constructor.
  - right. left. reflexivity.
  - left. reflexivity.
Defined.

(** C5 fails as stated: the code accepts values the specification's
    wording rejects, a media type list that only mentions
    [application/json] after another type, [*/*] with a parameter, and the
    non-string [null]. *)
Lemma accept_beyond_the_spec :
  validAcceptHeader (JStr "text/html;application/json") = true /\
  spec_acceptable (JStr "text/html;application/json") = false /\
  validAcceptHeader (JStr "*/*;q=0.8") = true /\
  spec_acceptable (JStr "*/*;q=0.8") = false /\
  validAcceptHeader JNull = true /\
  spec_acceptable JNull = false.
Proof. repeat split; reflexivity. Qed.

(** * Further properties of the routes *)

(** ** The two header predicates *)

Lemma validAcceptHeader_str s :
  validAcceptHeader (JStr s)
  = str_includes (map trim (split ";" s)) "application/json"
    || str_includes (map trim (split ";" s)) "*/*".
Proof.
  unfold validAcceptHeader.
  replace (negb (truthy (JStr s)) && negb (strict_equals (JStr s) (JStr "")))
    with false by (destruct s; reflexivity).
  cbv zeta. destruct (_ || _); reflexivity.
Qed.

Lemma validContentTypeHeader_str s :
  validContentTypeHeader (JStr s)
  = str_includes (map trim (split ";" s)) "application/json".
Proof.
  unfold validContentTypeHeader. destruct s as [|c s]; [reflexivity|].
  cbn [truthy String.eqb negb]. cbv zeta.
  destruct (str_includes _ _); reflexivity.
Qed.

(** X1. [validContentTypeHeader] accepts exactly the strings that, cut at
    every [;], have an item equal to [application/json] once the white
    space around it is removed; every falsy value (an absent header, the
    empty string) and every value that is not a string is refused. The
    comparison is case sensitive, and [*/*] is no Content-Type. *)
Theorem content_type_check :
  (forall h : JsVal,
     validContentTypeHeader h = true <->
     exists s, h = JStr s /\ has_segment "application/json" s) /\
  (forall h, truthy h = false -> validContentTypeHeader h = false) /\
  validContentTypeHeader (JStr "application/json; charset=utf-8") = true /\
  validContentTypeHeader (JStr "Application/JSON") = false /\
  validContentTypeHeader (JStr "*/*") = false.
Proof.
  split; [|split; [|repeat split; reflexivity]].
  - intros h. destruct h as [| |b|repr|s|ms|items|fields];
      try (split; [unfold validContentTypeHeader; cbn [truthy];
                    try destruct b; try destruct (negb _); discriminate
                  | intros (s' & Hs & _); discriminate Hs]).
    rewrite validContentTypeHeader_str.
    rewrite (str_includes_trim_split s "application/json" eq_refl).
    unfold has_segment. split.
    + intros H. exists s. split; [reflexivity | exact H].
    + intros (s' & [= <-] & H). exact H.
  - intros h Hf. unfold validContentTypeHeader. rewrite Hf. reflexivity.
Qed.

(** A Content-Type that names [application/json] second, with spaces. *)
Lemma content_type_check_witness :
  validContentTypeHeader (JStr "text/plain;  application/json ") = true.
Proof.
  apply (proj1 content_type_check).
  exists "text/plain;  application/json ". split; [reflexivity|].
  exists ["text/plain"; "  application/json "], "  application/json ", "  ", " ".
  repeat split; try reflexivity.
  - repeat constructor.
  - right. left. reflexivity.
Defined.

(** X2. Whatever [validContentTypeHeader] accepts, [validAcceptHeader]
    accepts too: the Accept check is the weaker of the two. *)
Theorem content_type_implies_accept (h : JsVal) :
  validContentTypeHeader h = true -> validAcceptHeader h = true.
Proof.
  destruct h as [| |b|repr|s|ms|items|fields];
    try (unfold validContentTypeHeader; cbn [truthy];
         try destruct b; try destruct (negb _); discriminate).
  rewrite validContentTypeHeader_str, validAcceptHeader_str.
  intros ->. reflexivity.
Qed.

Lemma content_type_implies_accept_witness :
  validAcceptHeader (JStr "application/json;charset=utf-8") = true.
Proof. apply content_type_implies_accept. reflexivity. Defined.

Lemma append_empty_r x : x ++ EmptyString = x.
Proof.
  induction x as [|c x IH]; [reflexivity|]. rewrite append_cons, IH. reflexivity.
Qed.

Lemma all_ws_no_semicolon l : all_ws l = true -> has_char ";" l = false.
Proof.
  induction l as [|c l IH]; simpl; [reflexivity|].
  intros H. apply andb_true_iff in H as [Hc Hl]. rewrite (IH Hl), orb_false_r.
  destruct (Ascii.eqb_spec c ";") as [->|]; [discriminate Hc | reflexivity].
Qed.

Section SplitPieces.
Variable sep : ascii.

(** A separator-free prefix joins the first piece. *)
Lemma split_pad_left l s :
  has_char sep l = false ->
  split sep (l ++ s)
  = match split sep s with
    | x :: rest => (l ++ x) :: rest
    | [] => [l]
    end.
Proof.
  induction l as [|c l IH]; intros Hl.
  - rewrite append_empty_l. pose proof (split_nonempty sep s).
    destruct (split sep s); [congruence | reflexivity].
  - simpl in Hl. apply orb_false_iff in Hl as [Hc Hl].
    rewrite append_cons. simpl. rewrite Hc, (IH Hl).
    destruct (split sep s); reflexivity.
Qed.

(** A separator-free suffix joins the last piece. *)
Lemma split_pad_right s r :
  has_char sep r = false ->
  split sep (s ++ r) = append_last (split sep s) r.
Proof.
  intros Hr. induction s as [|c s IH].
  - rewrite append_empty_l. simpl. apply split_free, Hr.
  - rewrite append_cons. simpl. rewrite IH.
    pose proof (split_nonempty sep s) as Hs.
    destruct (Ascii.eqb c sep).
    + destruct (split sep s); [congruence | reflexivity].
    + destruct (split sep s) as [|x [|y rest]]; [congruence | |]; reflexivity.
Qed.

(** Cutting a string that holds a separator: the pieces before it, then the
    pieces after it. *)
Lemma split_app x y :
  split sep (x ++ String sep y) = (split sep x ++ split sep y)%list.
Proof.
  induction x as [|c x IH].
  - rewrite append_empty_l. simpl. rewrite Ascii.eqb_refl. reflexivity.
  - rewrite append_cons. simpl. rewrite IH.
    pose proof (split_nonempty sep x) as Hx.
    destruct (Ascii.eqb c sep); [reflexivity|].
    destruct (split sep x); [congruence | reflexivity].
Qed.
End SplitPieces.

Lemma map_trim_append_last l r :
  all_ws r = true -> map trim (append_last l r) = map trim l.
Proof.
  intros Hr. induction l as [|x [|y rest] IH]; [reflexivity | |].
  - simpl. f_equal. apply (trim_pad "" x r); [reflexivity | exact Hr].
  - change (append_last (x :: y :: rest) r)
      with (x :: append_last (y :: rest) r).
    cbn [map]. rewrite IH. reflexivity.
Qed.

Lemma map_trim_padded l s r :
  all_ws l = true -> all_ws r = true ->
  map trim (split ";" (l ++ s ++ r)) = map trim (split ";" s).
Proof.
  intros Hl Hr.
  rewrite split_pad_left by (apply all_ws_no_semicolon, Hl).
  rewrite split_pad_right by (apply all_ws_no_semicolon, Hr).
  rewrite <- (map_trim_append_last (split ";" s) r Hr).
  pose proof (split_nonempty ";" s) as Hs.
  destruct (append_last (split ";" s) r) as [|x rest] eqn:E.
  - destruct (split ";" s) as [|a [|b t]];
      [congruence | discriminate E | discriminate E].
  - cbn [map]. f_equal.
    rewrite <- (append_empty_r x) at 1. apply trim_pad; [exact Hl | reflexivity].
Qed.

(** X3. White space before and after a header value changes the verdict
    of neither predicate. *)
Theorem header_padding (l s r : string) :
  all_ws l = true -> all_ws r = true ->
  validAcceptHeader (JStr (l ++ s ++ r)) = validAcceptHeader (JStr s) /\
  validContentTypeHeader (JStr (l ++ s ++ r)) = validContentTypeHeader (JStr s).
Proof.
  intros Hl Hr.
  rewrite !validAcceptHeader_str, !validContentTypeHeader_str.
  rewrite (map_trim_padded l s r Hl Hr). split; reflexivity.
Qed.

Lemma header_padding_witness :
  validAcceptHeader (JStr ("  " ++ "text/html" ++ " ")) = false /\
  validContentTypeHeader (JStr ("  " ++ "application/json" ++ " ")) = true.
Proof.
  destruct (header_padding "  " "text/html" " " eq_refl eq_refl) as [Ha _].
  destruct (header_padding "  " "application/json" " " eq_refl eq_refl)
    as [_ Hc].
  rewrite Ha, Hc. split; reflexivity.
Defined.

Lemma str_includes_app l1 l2 x :
  str_includes (l1 ++ l2)%list x = str_includes l1 x || str_includes l2 x.
Proof. apply existsb_app. Qed.

(** X4. A header value either predicate accepts stays accepted when any
    text is added after it or before it behind a [;]: parameters and
    further items never turn an acceptance into a refusal. *)
Theorem header_parameters (s p : string) :
  (validAcceptHeader (JStr s) = true ->
   validAcceptHeader (JStr (s ++ ";" ++ p)) = true /\
   validAcceptHeader (JStr (p ++ ";" ++ s)) = true) /\
  (validContentTypeHeader (JStr s) = true ->
   validContentTypeHeader (JStr (s ++ ";" ++ p)) = true /\
   validContentTypeHeader (JStr (p ++ ";" ++ s)) = true).
Proof.
  change (";" ++ p) with (String ";" p). change (";" ++ s) with (String ";" s).
  rewrite !validAcceptHeader_str, !validContentTypeHeader_str, !split_app,
    !map_app, !str_includes_app.
  split.
  - intros H. apply orb_true_iff in H as [-> | ->];
      rewrite ?orb_true_r; split; reflexivity.
  - intros ->. rewrite orb_true_r. split; reflexivity.
Qed.

Lemma header_parameters_witness :
  validContentTypeHeader (JStr ("application/json" ++ ";" ++ "charset=utf-8"))
  = true.
Proof.
  apply (proj2 (header_parameters "application/json" "charset=utf-8")).
  reflexivity.
Defined.

(** ** More on the status block *)

Lemma includes_three status :
  includes [JStr "PENDIENTE"; JStr "TERMINADO"; JStr "CANCELADO"] status = true ->
  exists s : Status, status = JStr (status_name s).
Proof.
  destruct status as [| |b|repr|s|ms|items|fields]; try discriminate.
  unfold includes. cbn [existsb same_value_zero strict_equals].
  rewrite orb_false_r. intros H.
  apply orb_true_iff in H as [H | H];
    [|apply orb_true_iff in H as [H | H]];
    apply String.eqb_eq in H; subst s;
    [exists PENDIENTE | exists TERMINADO | exists CANCELADO]; reflexivity.
Qed.

Lemma strict_equals_string_sym s (v : JsVal) :
  strict_equals (JStr s) v = strict_equals v (JStr s).
Proof. destruct v; try reflexivity. cbn. apply String.eqb_sym. Qed.

(** X5. The rejection of lines 294-305 ("can only be transitioned to
    status TERMINADO or status CANCELADO") is never sent: a status that
    reaches it is one of the three values and differs from the stored
    PENDIENTE, so it is TERMINADO or CANCELADO and the test of line 296
    fails. *)
Theorem pendiente_branch_is_dead (status : JsVal) (t : Obj) (v : JsVal) :
  actualizarTarea_status status t <> inl (IllegalTransition_pendiente v).
Proof.
  unfold actualizarTarea_status.
  destruct (truthy status); [|discriminate].
  destruct (includes _ status) eqn:Hinc; [|discriminate].
  apply includes_three in Hinc as [s ->]. cbn [negb].
  rewrite strict_equals_string_sym.
  destruct (strict_equals (prop t "status") (JStr (status_name s))) eqn:Hsame;
    cbn [negb]; [discriminate|].
  destruct s;
    cbn [status_name strict_equals String.eqb Ascii.eqb Bool.eqb negb andb] in *;
    rewrite ?Hsame, ?andb_false_r; cbn [andb];
    match goal with
    | |- (if ?b then _ else _) <> _ => destruct b; discriminate
    end.
Qed.

(** A request for one of the three values is refused by the block only when
    it crosses from one terminal state to the other, whatever the stored
    status is (a value outside the three, or none at all, included). *)
Lemma status_accepts (new : Status) (t : Obj) :
  ~ (prop t "status" = JStr "TERMINADO" /\ new = CANCELADO) ->
  ~ (prop t "status" = JStr "CANCELADO" /\ new = TERMINADO) ->
  actualizarTarea_status (JStr (status_name new)) t
  = inr (<["status" := JStr (status_name new)]> t).
Proof.
  intros H1 H2. unfold actualizarTarea_status.
  destruct (prop t "status") as [| |b|repr|s|ms|items|fields] eqn:Hold;
    try (destruct new; reflexivity).
  destruct new; cbn [status_name truthy includes existsb same_value_zero
                     strict_equals negb].
  all: repeat match goal with
         | |- context [String.eqb ?a ?b] =>
             destruct (String.eqb_spec a b); subst
         end; cbn [negb andb orb]; try reflexivity; try congruence.
  all: exfalso; (apply H1; split; reflexivity) || (apply H2; split; reflexivity).
Qed.

Section MoreValidatedUpdates.
Context {St : Type} (L : Logic St).
Variables (now : Z) (req : Request) (res : Response).
Variables (st st1 : St) (t : Obj).

(** As before: the request passes the three checks and the task is found. *)
Hypothesis content_type_ok :
  validContentTypeHeader (header req "Content-Type") = true.
Hypothesis accept_ok : validAcceptHeader (header req "Accept") = true.
Hypothesis description_ok :
  truthy (prop (req_body req) "description")
  && negb (is_string (prop (req_body req) "description")) = false.
Hypothesis task_found : getOne L (req_idTarea req) st = (Resolved t, st1).

(** X6. An update to one of the three status values is let through
    unless the stored status is TERMINADO and CANCELADO is requested, or
    the reverse: from PENDIENTE, from a stored status outside the three
    values and from a task without status, every one of the three is
    written, and the update succeeds when the write and the re-read do. *)
Theorem update_accepts_unless_crossing (new : Status) :
  prop (req_body req) "status" = JStr (status_name new) ->
  ~ (prop t "status" = JStr "TERMINADO" /\ new = CANCELADO) ->
  ~ (prop t "status" = JStr "CANCELADO" /\ new = TERMINADO) ->
  prop (written now req t (status_name new)) "status" = JStr (status_name new) /\
  (exists w tr,
     snd (run L (actualizarTarea now req res) st)
     = EvGetOne (req_idTarea req) (Resolved t)
       :: EvUpdate (req_idTarea req) (written now req t (status_name new)) w
       :: tr) /\
  (forall w st2 t2 st3,
     update L (req_idTarea req) (written now req t (status_name new)) st1
     = (Resolved w, st2) ->
     getOne L (req_idTarea req) st2 = (Resolved t2, st3) ->
     run L (actualizarTarea now req res) st
     = (Done (end_ (send (SendJson (JObj t2)) res)), st3,
        [EvGetOne (req_idTarea req) (Resolved t);
         EvUpdate (req_idTarea req) (written now req t (status_name new))
           (Resolved w);
         EvGetOne (req_idTarea req) (Resolved t2)])).
Proof.
  intros Hreq H1 H2. split; [apply written_status|].
  apply (run_after_status L now req res st st1 t); try assumption.
  rewrite Hreq. apply status_accepts; rewrite prop_delete_ne by discriminate;
    assumption.
Qed.

(** X7. A truthy status that is none of the three strings (another
    spelling, another case, a number, an object) is answered with the
    envelope of the invalid status, after the lookup of the task and
    without any write. *)
Theorem update_invalid_status :
  truthy (prop (req_body req) "status") = true ->
  includes [JStr "PENDIENTE"; JStr "TERMINADO"; JStr "CANCELADO"]
    (prop (req_body req) "status") = false ->
  run L (actualizarTarea now req res) st
  = (Done (bad_request InvalidStatusValue res), st1,
     [EvGetOne (req_idTarea req) (Resolved t)]).
Proof.
  intros Htruthy Hinc.
  rewrite (run_validated L now req res st t st1) by assumption.
  unfold update_result. rewrite (status_invalid _ _ Htruthy Hinc). reflexivity.
Qed.

(** X8. An update whose status is absent or falsy skips the status block:
    the record handed to the collaborator has the status that was read, the
    description of the request when that is a non-empty string and the one
    that was read otherwise, and the time of the request as [date]; the
    write is attempted in every case. *)
Theorem update_without_status :
  truthy (prop (req_body req) "status") = false ->
  let record := actualizarTarea_stamp now (prop (req_body req) "description")
                  (delete "id" t) in
  record !! "status" = t !! "status" /\
  (truthy (prop (req_body req) "description") = true ->
   record !! "description" = Some (prop (req_body req) "description")) /\
  (truthy (prop (req_body req) "description") = false ->
   record !! "description" = t !! "description") /\
  prop record "date" = JDate now /\
  (exists w tr,
     snd (run L (actualizarTarea now req res) st)
     = EvGetOne (req_idTarea req) (Resolved t)
       :: EvUpdate (req_idTarea req) record w :: tr).
Proof.
  intros Hfalsy record.
  split; [|split; [|split; [|split]]].
  - unfold record. rewrite stamp_other by discriminate.
    apply lookup_delete_ne. discriminate.
  - intros Hd. unfold record, actualizarTarea_stamp. rewrite Hd.
    rewrite lookup_insert_ne by discriminate. apply lookup_insert_eq.
  - intros Hd. unfold record. rewrite (stamp_falsy _ _ _ Hd).
    apply lookup_delete_ne. discriminate.
  - apply stamp_date.
  - rewrite (run_validated L now req res st t st1) by assumption.
    unfold update_result, actualizarTarea_status. rewrite Hfalsy. fold record.
    destruct (update L _ record st1) as [[w|e] st2].
    + destruct (getOne L _ st2) as [[t2|e] st3]; eexists _, _; reflexivity.
    + eexists _, _; reflexivity.
Qed.
End MoreValidatedUpdates.

(** A task stored without status is asked to become CANCELADO. *)
Lemma update_accepts_unless_crossing_witness :
  exists w tr,
    snd (run memLogic (actualizarTarea 2000 (put_status "CANCELADO") res0)
           store_sin_status)
    = EvGetOne "1" (Resolved (<["id" := JStr "1"]> task_sin_status))
      :: EvUpdate "1" (written 2000 (put_status "CANCELADO")
                         (<["id" := JStr "1"]> task_sin_status) "CANCELADO") w
      :: tr.
Proof.
  apply (update_accepts_unless_crossing memLogic 2000 (put_status "CANCELADO")
           res0 store_sin_status store_sin_status
           (<["id" := JStr "1"]> task_sin_status)
           eq_refl eq_refl eq_refl eq_refl CANCELADO eq_refl);
    intros [H _]; discriminate H.
Defined.

(** The status is spelled in lower case. *)
Lemma update_invalid_status_witness :
  run memLogic (actualizarTarea 2000 (put_status "terminado") res0)
    store_pendiente
  = (Done (bad_request InvalidStatusValue res0), store_pendiente,
     [EvGetOne "1" (Resolved (<["id" := JStr "1"]> task_pendiente))]).
Proof.
  apply (update_invalid_status memLogic 2000 (put_status "terminado") res0
           store_pendiente store_pendiente _ eq_refl eq_refl eq_refl eq_refl);
    reflexivity.
Defined.

(** A new description for a task whose status is TERMINADO. *)
Lemma update_without_status_witness :
  actualizarTarea_stamp 2000 (JStr "buy bread")
    (delete "id" (<["id" := JStr "1"]> task_terminado)) !! "status"
  = Some (JStr "TERMINADO") /\
  actualizarTarea_stamp 2000 (JStr "buy bread")
    (delete "id" (<["id" := JStr "1"]> task_terminado)) !! "description"
  = Some (JStr "buy bread").
Proof.
  destruct (update_without_status memLogic 2000
              (put_description (JStr "buy bread")) res0
              store_terminado store_terminado
              (<["id" := JStr "1"]> task_terminado)
              eq_refl eq_refl eq_refl eq_refl eq_refl)
    as (Hs & Hd & _).
  split; [exact Hs | apply Hd; reflexivity].
Defined.

(** ** The routes as a whole *)

Section MoreRuns.
Context {St : Type} (L : Logic St).
Variables (req : Request) (res : Response).

Lemma run_obtenerTareas st :
  run L (obtenerTareas req res) st =
  if negb (validAcceptHeader (header req "Accept")) then
    (Done (bad_request (MediaNotSupported (header req "Accept")) res), st, [])
  else
    match getAll L st with
    | (Resolved tareas, st1) =>
        (Done (end_ (send (SendJson (JArr (JObj <$> tareas))) res)), st1,
         [EvGetAll (Resolved tareas)])
    | (Rejected e, st1) => (Unhandled e, st1, [EvGetAll (Rejected e)])
    end.
Proof.
  unfold obtenerTareas. destruct (negb _); [reflexivity|].
  cbn [run]. destruct (getAll L st) as [[tareas|e] st1]; reflexivity.
Qed.

Lemma run_obtenerTarea st :
  run L (obtenerTarea req res) st =
  match getOne L (req_idTarea req) st with
  | (Resolved tarea, st1) =>
      (Done (end_ (send (SendJson (JObj tarea)) res)), st1,
       [EvGetOne (req_idTarea req) (Resolved tarea)])
  | (Rejected e, st1) =>
      (Done (bad_request (ResourceNotFound_get (req_idTarea req)) res), st1,
       [EvGetOne (req_idTarea req) (Rejected e)])
  end.
Proof.
  unfold obtenerTarea. cbn [run].
  destruct (getOne L _ st) as [[tarea|e] st1]; reflexivity.
Qed.

Lemma run_borrarTarea st :
  run L (borrarTarea req res) st =
  match getOne L (req_idTarea req) st with
  | (Rejected e, st1) =>
      (Done (bad_request (ResourceNotFound (req_idTarea req)) res), st1,
       [EvGetOne (req_idTarea req) (Rejected e)])
  | (Resolved t, st1) =>
      match erase L (req_idTarea req) st1 with
      | (Resolved w, st2) =>
          (Done (send (TaskDeleted (req_idTarea req)) (set_statusCode 200 res)),
           st2,
           [EvGetOne (req_idTarea req) (Resolved t);
            EvErase (req_idTarea req) (Resolved w)])
      | (Rejected e, st2) =>
          (Done (bad_request (PersistenceFailure_erase (req_idTarea req)) res),
           st2,
           [EvGetOne (req_idTarea req) (Resolved t);
            EvErase (req_idTarea req) (Rejected e)])
      end
  end.
Proof.
  unfold borrarTarea. cbn [run].
  destruct (getOne L _ st) as [[t|e] st1]; [|reflexivity].
  cbn [run]. destruct (erase L _ st1) as [[w|e] st2]; reflexivity.
Qed.
End MoreRuns.

(** Every way the run of a route can go, one goal each. *)
Ltac route_cases L :=
  unfold route_root, route_idTarea;
  rewrite ?run_actualizarTarea, ?run_crearTarea, ?run_borrarTarea,
    ?run_obtenerTarea, ?run_obtenerTareas;
  unfold update_result;
  repeat match goal with
         | |- context [if ?b then _ else _] => destruct b eqn:?
         | |- context [match actualizarTarea_status ?s ?t with _ => _ end] =>
             destruct (actualizarTarea_status s t) eqn:?
         | |- context [getAll L ?s] => destruct (getAll L s) as [[?|?] ?] eqn:?
         | |- context [getOne L ?i ?s] =>
             destruct (getOne L i s) as [[?|?] ?] eqn:?
         | |- context [create L ?r ?s] =>
             destruct (create L r s) as [[?|?] ?] eqn:?
         | |- context [update L ?i ?r ?s] =>
             destruct (update L i r s) as [[?|?] ?] eqn:?
         | |- context [erase L ?i ?s] =>
             destruct (erase L i s) as [[?|?] ?] eqn:?
         end.

(** Looks a header up in a response built by the middlewares. *)
Ltac lookup_header :=
  cbn [res_headers bad_request end_ end_with send set_statusCode setHeader
       allRequest showOptions showOptionsPerResource];
  repeat (rewrite lookup_insert_ne by discriminate);
  apply lookup_insert_eq.

(** X9. A request to [/:idTarea] leaves an exception unhandled in exactly
    one case, whatever the collaborator does: a PUT that passes both header
    checks and whose [description] is truthy, no string, and cannot be
    rendered into the message of the rejection. In every other case the
    handler ends the response it was given. *)
Theorem idTarea_route_unhandled_iff {St : Type} (L : Logic St) (m : Method)
  (now : Z) (req : Request) (res : Response) (st : St) :
  ((exists e, fst (fst (run L (route_idTarea m now req res) st)) = Unhandled e)
   <->
   m = PUT /\
   validContentTypeHeader (header req "Content-Type") = true /\
   validAcceptHeader (header req "Accept") = true /\
   truthy (prop (req_body req) "description") = true /\
   is_string (prop (req_body req) "description") = false /\
   toString_throws (prop (req_body req) "description") = true) /\
  (forall res',
     fst (fst (run L (route_idTarea m now req res) st)) = Done res' ->
     res_ended res' = true).
Proof.
  destruct m; route_cases L; cbn [run fst];
    repeat match goal with
           | H : negb _ = _ |- _ =>
               apply (f_equal negb) in H;
               rewrite negb_involutive in H; cbn [negb] in H
           | H : _ && _ = true |- _ => apply andb_true_iff in H as [? ?]
           end;
    (split;
     [ split;
       [ intros [e' He]; try discriminate He; auto 10
       | intros (Hm & Hct & Hacc & Ht & Hs & Hthrows);
         try discriminate Hm; eauto;
         repeat match goal with
                | H : _ && _ = false |- _ => rewrite Ht, Hs in H
                end;
         try discriminate; congruence ]
     | intros res' Hdone; try discriminate Hdone; injection Hdone as <-;
       reflexivity ]).
Qed.

(** [PUT /tasks/1] with [{description: {toString: 5}}]. *)
Lemma idTarea_route_unhandled_iff_witness :
  exists e,
    fst (fst (run memLogic
                (route_idTarea PUT 2000
                   (put_description (JObj {[ "toString" := JNum "5" ]}))
                   fresh_response) store_terminado))
    = Unhandled e.
Proof.
  apply (proj1 (idTarea_route_unhandled_iff memLogic PUT 2000
                  (put_description (JObj {[ "toString" := JNum "5" ]}))
                  fresh_response store_terminado)).
  repeat split; reflexivity.
Defined.

(** X10. A request to [/] leaves an exception unhandled in exactly these
    cases: a GET whose Accept header is accepted and whose [getAll] the
    collaborator rejects; a POST whose Content-Type is accepted and whose
    description is truthy and no string, or whose [create] the collaborator
    rejects. *)
Theorem root_route_unhandled_iff {St : Type} (L : Logic St) (m : Method)
  (now : Z) (req : Request) (res : Response) (st : St) :
  (exists e, fst (fst (run L (route_root m now req res) st)) = Unhandled e) <->
  (m = GET /\ validAcceptHeader (header req "Accept") = true /\
   exists e st1, getAll L st = (Rejected e, st1)) \/
  (m = POST /\ validContentTypeHeader (header req "Content-Type") = true /\
   (truthy (prop (req_body req) "description")
    && negb (is_string (prop (req_body req) "description")) = true
    \/ exists e st1,
         create L (modeloACrear now (req_body req)) st = (Rejected e, st1))).
Proof.
  destruct m; route_cases L; cbn [run fst];
    repeat match goal with
           | H : negb _ = _ |- _ =>
               apply (f_equal negb) in H;
               rewrite negb_involutive in H; cbn [negb] in H
           end;
    (split;
     [ intros [e' He]; try discriminate He; eauto 10
     | intros [(Hm & Ha & e' & s' & Hg) | (Hm & Hc & [Hd | (e' & s' & Hg)])];
       try discriminate Hm; try congruence; eauto ]).
Qed.

(** X11. Every response either route ends, for any method, carries the
    header [Access-Control-Allow-Origin: *] that [allRequest] sets: no
    handler removes or changes it, the plain-text 405 answers and the
    OPTIONS answers included. *)
Theorem every_response_allows_any_origin {St : Type} (L : Logic St)
  (m : Method) (now : Z) (req : Request) (res res' : Response) (st : St) :
  fst (fst (run L (route_root m now req res) st)) = Done res'
  \/ fst (fst (run L (route_idTarea m now req res) st)) = Done res' ->
  res_headers res' !! "Access-Control-Allow-Origin" = Some "*".
Proof.
  intros [H | H]; revert H; destruct m; route_cases L; cbn [run fst];
    intros H; try discriminate H; injection H as <-; lookup_header.
Qed.

(** The 405 answer to [PUT /tasks]. *)
Lemma every_response_allows_any_origin_witness :
  res_headers (end_with "PUT method is not supported on /tasks"
                 (set_statusCode 405 res0)) !! "Access-Control-Allow-Origin"
  = Some "*".
Proof.
  apply (every_response_allows_any_origin memLogic PUT 2000
           (put_status "TERMINADO") fresh_response _ store_empty).
  left. reflexivity.
Defined.

Lemma allow_list_root res :
  allow_list (showOptions res) = ["OPTIONS"; "GET"; "POST"].
Proof.
  unfold allow_list, showOptions. cbn [res_headers end_ setHeader].
  rewrite lookup_insert_eq. reflexivity.
Qed.

Lemma allow_list_idTarea res :
  allow_list (showOptionsPerResource res) = ["OPTIONS"; "GET"; "DELETE"; "PUT"].
Proof.
  unfold allow_list, showOptionsPerResource. cbn [res_headers end_ setHeader].
  rewrite lookup_insert_eq. reflexivity.
Qed.

(** X12. The [Allow] header of the OPTIONS answer of each route lists
    exactly the methods the route does not answer with 405, and the
    [Access-Control-Allow-Methods] header repeats it. *)
Theorem allow_header_matches_routes {St : Type} (L : Logic St) (m : Method)
  (now : Z) (req : Request) (res : Response) (st : St) :
  ((exists res', fst (fst (run L (route_root m now req res) st)) = Done res'
                 /\ statusCode res' = 405)
   <-> ~ In (method_name m) (allow_list (showOptions res))) /\
  ((exists res', fst (fst (run L (route_idTarea m now req res) st)) = Done res'
                 /\ statusCode res' = 405)
   <-> ~ In (method_name m) (allow_list (showOptionsPerResource res))) /\
  res_headers (showOptions res) !! "Access-Control-Allow-Methods"
  = res_headers (showOptions res) !! "Allow" /\
  res_headers (showOptionsPerResource res) !! "Access-Control-Allow-Methods"
  = res_headers (showOptionsPerResource res) !! "Allow".
Proof.
  rewrite allow_list_root, allow_list_idTarea.
  split; [|split; [|split]].
  - destruct m; route_cases L; cbn [run fst method_name In];
      (split;
       [ intros (res' & H & Hc); try discriminate H;
         injection H as <-; try discriminate Hc;
         intros Hin; intuition discriminate
       | intros Hn; try (exfalso; apply Hn; auto 6; fail);
         eexists; split; reflexivity ]).
  - destruct m; route_cases L; cbn [run fst method_name In];
      (split;
       [ intros (res' & H & Hc); try discriminate H;
         injection H as <-; try discriminate Hc;
         intros Hin; intuition discriminate
       | intros Hn; try (exfalso; apply Hn; auto 6; fail);
         eexists; split; reflexivity ]).
  - unfold showOptions. cbn [res_headers end_ setHeader].
    rewrite lookup_insert_eq, !lookup_insert_ne by discriminate.
    rewrite lookup_insert_eq. reflexivity.
  - unfold showOptionsPerResource. cbn [res_headers end_ setHeader].
    rewrite lookup_insert_eq, !lookup_insert_ne by discriminate.
    rewrite lookup_insert_eq. reflexivity.
Qed.

(** X13. A deletion always ends with a response. It is answered 200
    exactly when the collaborator's [erase] was called and resolved, and
    400 otherwise; [erase] is called at most once, for the identifier of the
    request, and only after [getOne] found the task; the store the run
    leaves is the one that call left. *)
Theorem delete_answers_by_erase {St : Type} (L : Logic St) (req : Request)
  (res : Response) (st : St) :
  exists res' st' tr,
    run L (borrarTarea req res) st = (Done res', st', tr) /\
    (statusCode res' = 200 <->
     exists w, In (EvErase (req_idTarea req) (Resolved w)) tr) /\
    (statusCode res' = 200 \/ statusCode res' = 400) /\
    (forall id' w, In (EvErase id' w) tr ->
       id' = req_idTarea req /\
       exists t st1, getOne L (req_idTarea req) st = (Resolved t, st1) /\
                     erase L (req_idTarea req) st1 = (w, st')) /\
    (length (List.filter is_write tr) <= 1)%nat.
Proof.
  rewrite run_borrarTarea.
  destruct (getOne L _ st) as [[t|e] st1] eqn:Hget.
  - destruct (erase L _ st1) as [[w|e] st2] eqn:Her; eexists _, _, _;
      (split; [reflexivity|]);
      cbn [statusCode bad_request send end_ set_statusCode].
    + split; [split; [intros _; exists w; right; left; reflexivity
                     | reflexivity]|].
      split; [auto|]. split; [|cbn; lia].
      intros id' w' H. event_cases H. injection H as <- <-. eauto.
    + split; [split; [discriminate|]|].
      { intros (w & H). event_cases H. }
      split; [auto|]. split; [|cbn; lia].
      intros id' w' H. event_cases H. injection H as <- <-. eauto.
  - eexists _, _, _. split; [reflexivity|].
    cbn [statusCode bad_request send end_ set_statusCode].
    split; [split; [discriminate|]|].
    { intros (w & H). event_cases H. }
    split; [auto|]. split; [|cbn; lia].
    intros id' w' H. event_cases H.
Qed.

(** X14. No request makes more than one changing call ([create],
    [update] or [erase]) on the collaborator, and only [POST /],
    [PUT /:idTarea] and [DELETE /:idTarea] make any: the GET and OPTIONS
    routes and the 405 answers never write. *)
Theorem at_most_one_write {St : Type} (L : Logic St) (m : Method) (now : Z)
  (req : Request) (res : Response) (st : St) :
  (length (List.filter is_write (snd (run L (route_root m now req res) st)))
   <= match m with POST => 1 | _ => 0 end)%nat /\
  (length (List.filter is_write (snd (run L (route_idTarea m now req res) st)))
   <= match m with PUT | DELETE => 1 | _ => 0 end)%nat.
Proof.
  split; destruct m; route_cases L; cbn; lia.
Qed.

(** X15. The Content-Type is the first thing a creation and an update
    look at: when it is refused, the answer is the envelope of the invalid
    Content-Type whatever the Accept header, the body and the identifier
    are, with no collaborator call. *)
Theorem content_type_checked_first {St : Type} (L : Logic St) (now : Z)
  (req : Request) (res : Response) (st : St) :
  validContentTypeHeader (header req "Content-Type") = false ->
  run L (route_root POST now req res) st
  = (Done (bad_request (InvalidContentType (header req "Content-Type"))
                       (allRequest res)), st, []) /\
  run L (route_idTarea PUT now req res) st
  = (Done (bad_request (InvalidContentType (header req "Content-Type"))
                       (allRequest res)), st, []).
Proof.
  intros Hct. unfold route_root, route_idTarea.
  rewrite run_crearTarea, run_actualizarTarea, Hct. split; reflexivity.
Qed.

(** A PUT with [Accept: text/html], no Content-Type and no body. *)
Lemma content_type_checked_first_witness :
  run memLogic (route_idTarea PUT 2000 get_text_html fresh_response)
    store_terminado
  = (Done (bad_request (InvalidContentType JUndefined) res0),
     store_terminado, []).
Proof.
  apply (content_type_checked_first memLogic 2000 get_text_html fresh_response
           store_terminado). reflexivity.
Defined.

Lemma prop_insert_ne (o : Obj) k k' v :
  k <> k' -> prop (<[k := v]> o) k' = prop o k'.
Proof. intros H. unfold prop. rewrite lookup_insert_ne by exact H. reflexivity. Qed.

Lemma modeloACrear_insert now (body : Obj) k v :
  ~ In k create_fields ->
  modeloACrear now (<[k := v]> body) = modeloACrear now body.
Proof.
  intros Hk. unfold modeloACrear.
  rewrite !prop_insert_ne; [reflexivity|..];
    intros ->; apply Hk; cbn; auto 12.
Qed.

(** X16. A creation only reads the nine descriptive attributes of the
    body: setting any other property ([status], [id], [date], ...) changes
    nothing of the run. The record it hands to the collaborator always has
    the time of the request as [date] and no [id]. *)
Theorem create_ignores_other_fields {St : Type} (L : Logic St) (now : Z)
  (req : Request) (res : Response) (st : St) (k : string) (v : JsVal) :
  ~ In k create_fields ->
  run L (crearTarea now (with_body_field k v req) res) st
  = run L (crearTarea now req res) st /\
  (forall record r,
     In (EvCreate record r) (snd (run L (crearTarea now req res) st)) ->
     prop record "date" = JDate now /\ record !! "id" = None).
Proof.
  intros Hk. split.
  - rewrite !run_crearTarea. unfold with_body_field, header.
    cbn [req_headers req_body].
    rewrite (modeloACrear_insert now _ k v Hk).
    rewrite prop_insert_ne; [reflexivity|].
    intros ->. apply Hk. cbn. auto 12.
  - intros record r. rewrite run_crearTarea.
    destruct (negb _); [intros H; event_cases H|].
    destruct (truthy _ && negb _); [intros H; event_cases H|].
    destruct (create L _ st) as [[tarea|e] st1]; intros H; event_cases H;
      injection H as <- _; split; reflexivity.
Qed.

(** A body that also asks for status TERMINADO. *)
Lemma create_ignores_other_fields_witness :
  run memLogic (crearTarea 2000
                  (with_body_field "status" (JStr "TERMINADO")
                     (post_description (JStr "buy milk"))) res0) store_empty
  = run memLogic (crearTarea 2000 (post_description (JStr "buy milk")) res0)
      store_empty.
Proof.
  apply (create_ignores_other_fields memLogic 2000
           (post_description (JStr "buy milk")) res0 store_empty
           "status" (JStr "TERMINADO")).
  cbn. intuition discriminate.
Defined.

(** ** The routes and the schema *)

(** X17. The properties of the record [crearTarea] builds are exactly the
    paths [tareaSchema] declares, [id] excepted; [status], which
    [actualizarTarea] reads and writes, is no path of the schema. *)
Theorem schema_covers_created_record (now : Z) (body : Obj) (k : string) :
  (is_Some (modeloACrear now body !! k)
   <-> In k (map fst tareaSchema) /\ k <> "id") /\
  ~ In "status" (map fst tareaSchema).
Proof.
  split; [|cbn; intuition discriminate].
  rewrite <- elem_of_dom. unfold modeloACrear.
  rewrite !dom_insert_L, dom_singleton_L.
  rewrite !elem_of_union, !elem_of_singleton. cbn [map fst tareaSchema In].
  split.
  - intros H. repeat destruct H as [H | H]; subst;
      (split; [auto 14 | discriminate]).
  - intros [Hin Hne]. repeat destruct Hin as [Hin | Hin]; subst;
      try congruence; try contradiction; auto 14.
Qed.
